(** * FlattenPen: a filter pen that turns curves into runs of straight lines

    A shallow embedding of [Lib/fontPens/flattenPen.py].  The pen is a Python
    object with mutable fields that calls the methods of another pen; here the
    fields are a record, the calls made on the other pen are a log kept in the
    record, and every method is a function from the pen before the call to the
    pen after it together with the outcome (a value or a raised exception). *)

From Stdlib Require Import ZArith List Bool String Lia Floats.
Import ListNotations.

Local Open Scope Z_scope.

(** ** Python values *)

(** A point is a pair of numbers.  Coordinates are binary64 floats; the
    operators below are the IEEE ones that Python's [float] uses. *)
Definition Point : Type := (float * float)%type.

(** What a point argument or a point field can hold at run time: a
    coordinate pair, or Python's [None]. *)
Definition PyPt : Type := option Point.

(** The transformation of a component, a 2x3 affine matrix as a 6-tuple. *)
Definition Transformation : Type :=
  (float * float * float * float * float * float)%type.

Inductive PyExc : Type :=
| TypeError
| ValueError
| OverflowError
| ZeroDivisionError.

Inductive Res (A : Type) : Type :=
| Ok (a : A)
| Raise (e : PyExc).
Arguments Ok {A} a.
Arguments Raise {A} e.

Definition res_bind {A B : Type} (r : Res A) (k : A -> Res B) : Res B :=
  match r with
  | Ok a => k a
  | Raise e => Raise e
  end.

(** [a == b] on floats: IEEE equality, so [nan] differs from itself and the
    two zeros are equal. *)
Definition float_eq (a b : float) : bool := PrimFloat.eqb a b.

(** [p == q] on coordinate pairs: component-wise.  (Python answers [True]
    early when both sides hold the very same float object; object identity
    is not part of this model, which only matters for [nan] coordinates.) *)
Definition pt_eqb (p q : Point) : bool :=
  float_eq (fst p) (fst q) && float_eq (snd p) (snd q).

(** [a == b] where either side may be [None]. *)
Definition py_eq (a b : PyPt) : bool :=
  match a, b with
  | Some p, Some q => pt_eqb p q
  | None, None => true
  | _, _ => false
  end.

(** [x / y] on floats: Python raises on a zero divisor, and otherwise
    divides as IEEE does (an overflow gives an infinity, silently). *)
Definition py_div (x y : float) : Res float :=
  if float_eq y 0%float then Raise ZeroDivisionError
  else Ok (PrimFloat.div x y).

(** [float(i)] for an integer [i]: the nearest binary64 number.  (Python
    raises for integers beyond the largest float; the pen only converts
    step numbers, which are bounded by a rounded float.) *)
Definition float_of_int (i : Z) : float :=
  SF2Prim (binary_normalize prec emax i 0 false).

(** [range(a, b)] *)
Definition range (a b : Z) : list Z :=
  map (fun k => a + Z.of_nat k) (seq 0 (Z.to_nat (b - a))).

(** The value of a finite float [m * 2^e] rounded to an integer, ties away
    from zero ([even = false], Python 2) or to even ([even = true],
    Python 3). *)
Definition round_mantissa (even : bool) (m : positive) (e : Z) : Z :=
  if 0 <=? e then Zpos m * 2 ^ e
  else
    let d := 2 ^ (- e) in
    let q := Zpos m / d in
    let r := Zpos m mod d in
    if 2 * r <? d then q
    else if d <? 2 * r then q + 1
    else if even && Z.even q then q else q + 1.

Definition int_round_with (even : bool) (x : float) : Res Z :=
  match Prim2SF x with
  | S754_zero _ => Ok 0
  | S754_infinity _ => Raise OverflowError
  | S754_nan => Raise ValueError
  | S754_finite s m e =>
      let n := round_mantissa even m e in
      Ok (if s then - n else n)
  end.

(** [int(round(x))] as Python 2 and as Python 3 compute it. *)
Definition int_round_py2 : float -> Res Z := int_round_with false.
Definition int_round_py3 : float -> Res Z := int_round_with true.

(** ** The helpers imported from penTools *)

(** Modelled from the spec: penTools.distance, whose source is not part of
    the file under study.  Euclidean distance,
    sqrt((xb - xa)^2 + (yb - ya)^2); taking the coordinates of [None]
    raises. *)
Definition distance (a b : PyPt) : Res float :=
  match a, b with
  | Some (xa, ya), Some (xb, yb) =>
      Ok (PrimFloat.sqrt ((xb - xa) * (xb - xa) + (yb - ya) * (yb - ya))%float)
  | _, _ => Raise TypeError
  end.

(** Modelled from the spec: penTools.interpolatePoint, whose source is not
    part of the file under study.  a + (b - a) * t on each coordinate. *)
Definition interpolatePoint (a b : PyPt) (t : float) : Res PyPt :=
  match a, b with
  | Some (xa, ya), Some (xb, yb) =>
      Ok (Some (xa + (xb - xa) * t, ya + (yb - ya) * t)%float)
  | _, _ => Raise TypeError
  end.

(** Modelled from the spec: penTools.getCubicPoint, whose source is not part
    of the file under study.  The cubic Bezier polynomial
    (1-t)^3 p0 + 3 (1-t)^2 t p1 + 3 (1-t) t^2 p2 + t^3 p3. *)
Definition bezier (t c0 c1 c2 c3 : float) : float :=
  (let u := 1 - t in
   u * u * u * c0 + 3 * (u * u) * t * c1 + 3 * u * (t * t) * c2
   + t * t * t * c3)%float.

Definition getCubicPoint (t : float) (p0 p1 p2 p3 : PyPt) : Res PyPt :=
  match p0, p1, p2, p3 with
  | Some (x0, y0), Some (x1, y1), Some (x2, y2), Some (x3, y3) =>
      Ok (Some (bezier t x0 x1 x2 x3, bezier t y0 y1 y2 y3))
  | _, _, _, _ => Raise TypeError
  end.

(** Modelled from the spec: penTools.estimateCubicCurveLength, whose source
    is not part of the file under study.  The spec fixes no formula; this is
    the estimate it names as acceptable, the mean of the chord and of the
    control polygon.  The pen below takes the estimator as a parameter, and
    this one only serves to run it. *)
Definition estimateCubicCurveLength_polygon (p0 p1 p2 p3 : PyPt) : Res float :=
  res_bind (distance p0 p3) (fun chord =>
  res_bind (distance p0 p1) (fun a =>
  res_bind (distance p1 p2) (fun b =>
  res_bind (distance p2 p3) (fun c =>
  Ok ((chord + (a + b + c)) / 2)%float)))).

(** ** The pen protocol *)

(** A call on a pen. *)
Inductive PenCall : Type :=
| MoveTo (pt : PyPt)
| LineTo (pt : PyPt)
| CurveTo (pt1 pt2 pt3 : PyPt)
| ClosePath
| EndPath
| AddComponent (glyphName : string) (transformation : Transformation).

Definition is_CurveTo (c : PenCall) : bool :=
  match c with CurveTo _ _ _ => true | _ => false end.

Definition is_LineTo (c : PenCall) : bool :=
  match c with LineTo _ => true | _ => false end.

(** ** The pen object *)

(** The fields of a [FlattenPen].  [otherPen] holds the calls made so far on
    the pen this filter draws with, oldest first. *)
Record FlattenPen : Type := mkFlattenPen {
  approximateSegmentLength : float;
  otherPen : list PenCall;
  currentPt : PyPt;
  firstPt : PyPt;
  segmentLines : bool;
  filterDoubles : bool
}.

(** A method: it may change the pen, and returns or raises.  The changes
    made before an exception stay made. *)
Definition Meth (A : Type) : Type := FlattenPen -> FlattenPen * Res A.

Definition ret {A : Type} (a : A) : Meth A := fun self => (self, Ok a).

Definition bind {A B : Type} (m : Meth A) (k : A -> Meth B) : Meth B :=
  fun self =>
    match m self with
    | (self', Ok a) => k a self'
    | (self', Raise e) => (self', Raise e)
    end.

Definition lift {A : Type} (r : Res A) : Meth A := fun self => (self, r).

Notation "x <- m ;; k" := (bind m (fun x => k))
  (at level 61, m at next level, right associativity).
Notation "m ;; k" := (bind m (fun _ => k))
  (at level 61, right associativity).

(** [self.otherPen.<call>] *)
Definition call_otherPen (c : PenCall) : Meth unit :=
  fun self =>
    (mkFlattenPen (approximateSegmentLength self) (otherPen self ++ [c])
       (currentPt self) (firstPt self) (segmentLines self)
       (filterDoubles self), Ok tt).

(** [self.currentPt = pt] *)
Definition set_currentPt (pt : PyPt) : Meth unit :=
  fun self =>
    (mkFlattenPen (approximateSegmentLength self) (otherPen self) pt
       (firstPt self) (segmentLines self) (filterDoubles self), Ok tt).

(** [self.firstPt = pt] *)
Definition set_firstPt (pt : PyPt) : Meth unit :=
  fun self =>
    (mkFlattenPen (approximateSegmentLength self) (otherPen self)
       (currentPt self) pt (segmentLines self) (filterDoubles self), Ok tt).

(** [for x in l: body(x)] *)
Fixpoint for_each {A : Type} (l : list A) (body : A -> Meth unit) : Meth unit :=
  match l with
  | [] => ret tt
  | x :: l' => body x ;; for_each l' body
  end.

(** [FlattenPen(otherPen, approximateSegmentLength, segmentLines,
    filterDoubles)], with nothing drawn on [otherPen] yet. *)
Definition __init__ (approximateSegmentLength : float)
    (segmentLines filterDoubles : bool) : FlattenPen :=
  mkFlattenPen approximateSegmentLength [] None None segmentLines filterDoubles.

Section Methods.

(** [int(round(x))]: ties are rounded away from zero by Python 2 and to
    even by Python 3, and both raise on an infinity or a nan. *)
Variable int_round : float -> Res Z.

(** penTools.estimateCubicCurveLength *)
Variable estimateCubicCurveLength : PyPt -> PyPt -> PyPt -> PyPt -> Res float.

Definition _moveTo (pt : PyPt) : Meth unit :=
  call_otherPen (MoveTo pt) ;;
  set_currentPt pt ;;
  set_firstPt pt.

Definition _lineTo (pt : PyPt) : Meth unit :=
  fun self =>
    if filterDoubles self && py_eq pt (currentPt self) then ret tt self
    else if negb (segmentLines self) then
      (call_otherPen (LineTo pt) ;;
       set_currentPt pt) self
    else
      (d <- lift (distance (currentPt self) pt) ;;
       q <- lift (py_div d (approximateSegmentLength self)) ;;
       maxSteps <- lift (int_round q) ;;
       if maxSteps <? 1 then
         call_otherPen (LineTo pt) ;;
         set_currentPt pt
       else
         let step := (1 / float_of_int maxSteps)%float in
         let factors := range 0 (maxSteps + 1) in
         for_each (tl factors) (fun i =>
           p <- lift (interpolatePoint (currentPt self) pt
                        (float_of_int i * step)%float) ;;
           call_otherPen (LineTo p)) ;;
         set_currentPt pt) self.

Definition _curveToOne (pt1 pt2 pt3 : PyPt) : Meth unit :=
  fun self =>
    (len <- lift (estimateCubicCurveLength (currentPt self) pt1 pt2 pt3) ;;
     est <- lift (py_div len (approximateSegmentLength self)) ;;
     maxSteps <- lift (int_round est) ;;
     let falseCurve := py_eq pt1 (currentPt self) && py_eq pt2 pt3 in
     if (maxSteps <? 1) || falseCurve then
       call_otherPen (LineTo pt3) ;;
       set_currentPt pt3
     else
       let step := (1 / float_of_int maxSteps)%float in
       let factors := range 0 (maxSteps + 1) in
       for_each (tl factors) (fun i =>
         pt <- lift (getCubicPoint (float_of_int i * step)%float
                       (currentPt self) pt1 pt2 pt3) ;;
         call_otherPen (LineTo pt)) ;;
       set_currentPt pt3) self.

(** [BasePen.lineTo], which [_closePath] goes through, hands the point to
    [_lineTo]. *)
Definition lineTo (pt : PyPt) : Meth unit := _lineTo pt.

Definition _closePath : Meth unit :=
  fun self =>
    (lineTo (firstPt self) ;;
     call_otherPen ClosePath ;;
     set_currentPt None) self.

Definition _endPath : Meth unit :=
  call_otherPen EndPath ;;
  set_currentPt None.

Definition addComponent (glyphName : string)
    (transformation : Transformation) : Meth unit :=
  call_otherPen (AddComponent glyphName transformation).

(** The entry points inherited from [BasePen]: each call of the protocol
    reaches the method above that implements it (a [curveTo] with two
    control points reaches [_curveToOne]). *)
Definition call (c : PenCall) : Meth unit :=
  match c with
  | MoveTo pt => _moveTo pt
  | LineTo pt => lineTo pt
  | CurveTo pt1 pt2 pt3 => _curveToOne pt1 pt2 pt3
  | ClosePath => _closePath
  | EndPath => _endPath
  | AddComponent g t => addComponent g t
  end.

(** A producer drawing into the pen: the calls in order, up to the first
    one that raises. *)
Definition draw (calls : list PenCall) : Meth unit := for_each calls call.

End Methods.

(** ** The batch function *)

Section FlattenGlyph.

Variable int_round : float -> Res Z.
Variable estimateCubicCurveLength : PyPt -> PyPt -> PyPt -> PyPt -> Res float.

(** The glyph object and the two pens that stand between the filter and
    the glyph come from other packages (fontParts, ufoLib,
    fontPens.dataPointPen).  [flattenGlyph] uses them through the
    operations below only, which are taken to return. *)

(** The state of a glyph object. *)
Variable Glyph : Type.
(** [len(aGlyph)], the number of its contours. *)
Variable glyph_len : Glyph -> nat.
(** The calls that [aGlyph.draw(pen)] makes on [pen]. *)
Variable glyph_draw : Glyph -> list PenCall.
(** The glyph after [aGlyph.clear()]. *)
Variable glyph_clear : Glyph -> Glyph.
(** What a [DataPointPen] has recorded. *)
Variable Data : Type.
(** [DataPointPen()], with nothing recorded. *)
Variable DataPointPen : Data.
(** What [data] holds once the given calls were made on
    [SegmentToPointPen(data)]. *)
Variable SegmentToPointPen : list PenCall -> Data -> Data.
(** The glyph after [data.draw(aGlyph.getPen())]. *)
Variable data_draw : Data -> Glyph -> Glyph.

(** The glyph is an object that [flattenGlyph] changes in place and
    returns: the result is the state of that object after the call, and
    whether the call returned (the object itself) or raised. *)
Definition flattenGlyph (aGlyph : Glyph) (threshold : float)
    (segmentLines : bool) : Glyph * Res unit :=
  if Nat.eqb (glyph_len aGlyph) 0 then (aGlyph, Ok tt)
  else
    let data := DataPointPen in
    let filterpen := __init__ threshold segmentLines true in
    match draw int_round estimateCubicCurveLength (glyph_draw aGlyph)
            filterpen with
    | (filterpen', Ok _) =>
        let data' := SegmentToPointPen (otherPen filterpen') data in
        let aGlyph' := glyph_clear aGlyph in
        (data_draw data' aGlyph', Ok tt)
    | (_, Raise e) => (aGlyph, Raise e)
    end.

End FlattenGlyph.

(** ** Notions used in the statements *)

(** [preserves P m]: when [P] holds of the pen before [m], it holds of the
    pen after it, whether [m] returned or raised. *)
Definition preserves {A : Type} (P : FlattenPen -> Prop) (m : Meth A) : Prop :=
  forall self, P self -> P (fst (m self)).

(** No [curveTo] among the calls made on the other pen so far. *)
Definition curve_free (self : FlattenPen) : Prop :=
  forallb (fun c => negb (is_CurveTo c)) (otherPen self) = true.

(** The pen once the calls [out] were made on the other pen and
    [currentPt] was set to [cur]. *)
Definition drew (self : FlattenPen) (out : list PenCall) (cur : PyPt)
    : FlattenPen :=
  mkFlattenPen (approximateSegmentLength self) (otherPen self ++ out) cur
    (firstPt self) (segmentLines self) (filterDoubles self).

(** A path without curves and components. *)
Definition is_line_call (c : PenCall) : bool :=
  match c with
  | MoveTo _ | LineTo _ | ClosePath | EndPath => true
  | CurveTo _ _ _ | AddComponent _ _ => false
  end.

(** The calls of a path with the closing edge written out: a [lineTo] to
    the point of the last [moveTo] before every [closePath]. *)
Fixpoint withClosingEdges (first : PyPt) (calls : list PenCall)
    : list PenCall :=
  match calls with
  | [] => []
  | MoveTo pt :: rest => MoveTo pt :: withClosingEdges pt rest
  | ClosePath :: rest =>
      LineTo first :: ClosePath :: withClosingEdges first rest
  | c :: rest => c :: withClosingEdges first rest
  end.

(** The calls of a path without the [lineTo]s that go to the point the path
    is at ([cur], which a [closePath] or [endPath] makes undefined). *)
Fixpoint withoutDoubles (cur : PyPt) (calls : list PenCall) : list PenCall :=
  match calls with
  | [] => []
  | MoveTo pt :: rest => MoveTo pt :: withoutDoubles pt rest
  | LineTo pt :: rest =>
      if py_eq pt cur then withoutDoubles cur rest
      else LineTo pt :: withoutDoubles pt rest
  | ClosePath :: rest => ClosePath :: withoutDoubles None rest
  | EndPath :: rest => EndPath :: withoutDoubles None rest
  | c :: rest => c :: withoutDoubles cur rest
  end.

(** The glyph of the doctests, [_makeTestGlyph]: a closed square. *)
Definition testGlyph_calls : list PenCall :=
  [MoveTo (Some (10, 10)%float);
   LineTo (Some (10, 30)%float);
   LineTo (Some (30, 30)%float);
   LineTo (Some (30, 10)%float);
   ClosePath].

(** A stand-in for the glyph object and the recording pens, to run
    [flattenGlyph]: a glyph is the list of the calls that draw it, it has
    one contour for each [moveTo], and what is replayed into it is added
    at its end. *)
Definition callsGlyph_len (g : list PenCall) : nat :=
  List.length (filter (fun c => match c with MoveTo _ => true | _ => false end)
                 g).

Definition callsGlyph_flatten (g : list PenCall) (threshold : float)
    (segmentLines : bool) : list PenCall * Res unit :=
  flattenGlyph int_round_py2 estimateCubicCurveLength_polygon
    (list PenCall) callsGlyph_len (fun g => g) (fun _ => [])
    (list PenCall) [] (fun calls data => data ++ calls)
    (fun data g => g ++ data)
    g threshold segmentLines.

(** ** Notions used in the further properties *)

(** The calls that give a path its structure: all but the segments. *)
Definition is_structural (c : PenCall) : bool :=
  match c with
  | LineTo _ | CurveTo _ _ _ => false
  | MoveTo _ | ClosePath | EndPath | AddComponent _ _ => true
  end.

Definition is_MoveTo (c : PenCall) : bool :=
  match c with MoveTo _ => true | _ => false end.

(** The same pen drawing with an other pen that had received the calls
    [before] beforehand. *)
Definition relog (before : list PenCall) (self : FlattenPen) : FlattenPen :=
  mkFlattenPen (approximateSegmentLength self) (before ++ otherPen self)
    (currentPt self) (firstPt self) (segmentLines self) (filterDoubles self).

(** Every [moveTo] of the path goes to a point that is equal to itself (no
    coordinate is a nan). *)
Definition starts_self_equal (calls : list PenCall) : bool :=
  forallb (fun c => match c with MoveTo pt => py_eq pt pt | _ => true end)
    calls.

(** [m] behaves the same whatever the other pen had received before, and
    only adds to it. *)
Definition log_blind {A : Type} (m : Meth A) : Prop :=
  forall before self,
    m (relog before self) = (relog before (fst (m self)), snd (m self)).

(** The grammar of the pen protocol: a contour is a [moveTo], segments,
    and a [closePath] or [endPath]; components come between contours.
    [path_state inside calls] tells whether a contour is open after the
    calls, given whether one was open before them, and is [None] when a call
    is out of place. *)
Fixpoint path_state (inside : bool) (calls : list PenCall) : option bool :=
  match calls with
  | [] => Some inside
  | MoveTo _ :: rest => if inside then None else path_state true rest
  | LineTo _ :: rest => if inside then path_state true rest else None
  | CurveTo _ _ _ :: rest => if inside then path_state true rest else None
  | ClosePath :: rest => if inside then path_state false rest else None
  | EndPath :: rest => if inside then path_state false rest else None
  | AddComponent _ _ :: rest =>
      if inside then None else path_state false rest
  end.

(** * Properties *)

(** ** The doctest of the source, replayed *)

(** [_testFlattenPen]: segments of length 10, lines cut as well. *)
Example testFlattenPen :
  otherPen (fst (draw int_round_py2 estimateCubicCurveLength_polygon
                   testGlyph_calls (__init__ 10 true true)))
  = [MoveTo (Some (10, 10)%float);
     LineTo (Some (10, 20)%float);
     LineTo (Some (10, 30)%float);
     LineTo (Some (20, 30)%float);
     LineTo (Some (30, 30)%float);
     LineTo (Some (30, 20)%float);
     LineTo (Some (30, 10)%float);
     LineTo (Some (20, 10)%float);
     LineTo (Some (10, 10)%float);
     ClosePath].
Proof. vm_compute. reflexivity. Qed.

(** ** What every method leaves true *)

Lemma preserves_ret {A : Type} (P : FlattenPen -> Prop) (a : A) :
  preserves P (ret a).
Proof. intros self H. exact H. Qed.

Lemma preserves_lift {A : Type} (P : FlattenPen -> Prop) (r : Res A) :
  preserves P (lift r).
Proof. intros self H. exact H. Qed.

Lemma preserves_bind {A B : Type} (P : FlattenPen -> Prop)
    (m : Meth A) (k : A -> Meth B) :
  preserves P m -> (forall a, preserves P (k a)) -> preserves P (bind m k).
Proof.
  intros Hm Hk self H. unfold bind.
  specialize (Hm self H).
  destruct (m self) as [self' [a | e]]; simpl in *.
  - apply Hk. exact Hm.
  - exact Hm.
Qed.

Lemma preserves_for_each {A : Type} (P : FlattenPen -> Prop)
    (l : list A) (body : A -> Meth unit) :
  (forall x, preserves P (body x)) -> preserves P (for_each l body).
Proof.
  intros Hbody. induction l as [| x l IH]; simpl.
  - apply preserves_ret.
  - apply preserves_bind; [apply Hbody | intros _; exact IH].
Qed.

Lemma curve_free_call_otherPen (c : PenCall) :
  is_CurveTo c = false -> preserves curve_free (call_otherPen c).
Proof.
  intros Hc self H. unfold curve_free in *. simpl.
  rewrite forallb_app, H. simpl. rewrite Hc. reflexivity.
Qed.

Lemma curve_free_set_currentPt (pt : PyPt) :
  preserves curve_free (set_currentPt pt).
Proof. intros self H. exact H. Qed.

Lemma curve_free_set_firstPt (pt : PyPt) :
  preserves curve_free (set_firstPt pt).
Proof. intros self H. exact H. Qed.

Create HintDb pen.
#[local] Hint Resolve preserves_ret preserves_lift : pen.

Ltac step_preserves :=
  repeat first
    [ apply preserves_bind; [| intro]
    | apply preserves_for_each; intro
    | solve [auto with pen] ].

(** A property that no [lineTo] on the other pen and no change of
    [currentPt] can break is kept by [_lineTo] and [_curveToOne]. *)
Section Preserved.

Variable int_round : float -> Res Z.
Variable estimateCubicCurveLength : PyPt -> PyPt -> PyPt -> PyPt -> Res float.
Variable P : FlattenPen -> Prop.
Hypothesis P_lineTo : forall pt, preserves P (call_otherPen (LineTo pt)).
Hypothesis P_currentPt : forall pt, preserves P (set_currentPt pt).

#[local] Hint Resolve P_lineTo P_currentPt : pen.

Lemma lineTo_preserves (pt : PyPt) : preserves P (_lineTo int_round pt).
Proof.
  intros self. unfold _lineTo.
  destruct (filterDoubles self && py_eq pt (currentPt self)).
  - apply preserves_ret.
  - destruct (negb (segmentLines self)).
    + revert self. step_preserves.
    + generalize (currentPt self) (approximateSegmentLength self).
      intros cur len. revert self. step_preserves.
      destruct (_ <? 1); step_preserves.
Qed.

Lemma curveToOne_preserves (pt1 pt2 pt3 : PyPt) :
  preserves P (_curveToOne int_round estimateCubicCurveLength pt1 pt2 pt3).
Proof.
  intros self. unfold _curveToOne.
  generalize (currentPt self) (approximateSegmentLength self).
  intros cur len. revert self. step_preserves.
  destruct (_ || _); step_preserves.
Qed.

End Preserved.

Section Curve_free.

Variable int_round : float -> Res Z.
Variable estimateCubicCurveLength : PyPt -> PyPt -> PyPt -> PyPt -> Res float.

Lemma curve_free_call (c : PenCall) :
  preserves curve_free (call int_round estimateCubicCurveLength c).
Proof.
  assert (Hline : forall pt, preserves curve_free (call_otherPen (LineTo pt)))
    by (intro; apply curve_free_call_otherPen; reflexivity).
  destruct c; simpl.
  - unfold _moveTo. step_preserves.
    + apply curve_free_call_otherPen; reflexivity.
    + apply curve_free_set_currentPt.
    + apply curve_free_set_firstPt.
  - apply lineTo_preserves; [exact Hline | apply curve_free_set_currentPt].
  - apply curveToOne_preserves; [exact Hline | apply curve_free_set_currentPt].
  - intros self. unfold _closePath.
    generalize (firstPt self). intros first. revert self.
    apply preserves_bind; [| intro; apply preserves_bind; [| intro]].
    + apply lineTo_preserves; [exact Hline | apply curve_free_set_currentPt].
    + apply curve_free_call_otherPen; reflexivity.
    + apply curve_free_set_currentPt.
  - unfold _endPath. apply preserves_bind; [| intro].
    + apply curve_free_call_otherPen; reflexivity.
    + apply curve_free_set_currentPt.
  - apply curve_free_call_otherPen; reflexivity.
Qed.

Lemma curve_free_draw (calls : list PenCall) :
  preserves curve_free (draw int_round estimateCubicCurveLength calls).
Proof. apply preserves_for_each. apply curve_free_call. Qed.

End Curve_free.

(** C1.  Whatever calls a producer makes on a new FlattenPen, and whatever
    its segment length, [segmentLines] and [filterDoubles], no [curveTo] is
    ever made on the other pen: it receives [moveTo], [lineTo], [closePath],
    [endPath] and [addComponent] only.  This holds of the calls made up to an
    exception as well, for any rounding and any length estimator. *)
Theorem flattenPen_never_emits_curveTo :
  forall (int_round : float -> Res Z)
         (estimateCubicCurveLength : PyPt -> PyPt -> PyPt -> PyPt -> Res float)
         (approximateSegmentLength : float) (segmentLines filterDoubles : bool)
         (calls : list PenCall),
    forallb (fun c => negb (is_CurveTo c))
      (otherPen (fst (draw int_round estimateCubicCurveLength calls
                        (__init__ approximateSegmentLength segmentLines
                           filterDoubles)))) = true.
Proof.
  intros. apply curve_free_draw. reflexivity.
Qed.

(** ** The branches of [_lineTo] *)

Lemma drew_nothing (self : FlattenPen) : drew self [] (currentPt self) = self.
Proof. destruct self. unfold drew. simpl. rewrite app_nil_r. reflexivity. Qed.

(** First branch: the point is the current one and doubles are filtered. *)
Lemma lineTo_dropped (int_round : float -> Res Z) (pt : PyPt)
    (self : FlattenPen) :
  filterDoubles self = true -> py_eq pt (currentPt self) = true ->
  _lineTo int_round pt self = (self, Ok tt).
Proof.
  intros Hfd Heq. unfold _lineTo. rewrite Hfd, Heq. reflexivity.
Qed.

(** Second branch: lines are not cut. *)
Lemma lineTo_forwarded (int_round : float -> Res Z) (pt : PyPt)
    (self : FlattenPen) :
  filterDoubles self && py_eq pt (currentPt self) = false ->
  segmentLines self = false ->
  _lineTo int_round pt self = (drew self [LineTo pt] pt, Ok tt).
Proof.
  intros Hdrop Hsl. unfold _lineTo. rewrite Hdrop, Hsl. reflexivity.
Qed.

(** [_lineTo] never touches [firstPt]. *)
Lemma lineTo_keeps_firstPt (int_round : float -> Res Z) (pt first : PyPt) :
  preserves (fun self => firstPt self = first) (_lineTo int_round pt).
Proof.
  apply lineTo_preserves; intros p self H; exact H.
Qed.

(** C6.  A [lineTo] to the point the pen is at, with [filterDoubles] on:
    nothing is drawn on the other pen and no field of the pen changes,
    whether [segmentLines] is on or off. *)
Theorem lineTo_double_changes_nothing :
  forall (int_round : float -> Res Z) (self : FlattenPen) (pt cur : Point),
    currentPt self = Some cur ->
    filterDoubles self = true ->
    pt_eqb pt cur = true ->
    _lineTo int_round (Some pt) self = (self, Ok tt).
Proof.
  intros int_round self pt cur Hcur Hfd Heq.
  unfold _lineTo. rewrite Hfd, Hcur. simpl. rewrite Heq. reflexivity.
Qed.

Lemma lineTo_double_changes_nothing_witness :
  _lineTo int_round_py2 (Some (30, 10)%float)
    (mkFlattenPen 10 [MoveTo (Some (30, 10)%float)] (Some (30, 10)%float)
       (Some (30, 10)%float) true true)
  = (mkFlattenPen 10 [MoveTo (Some (30, 10)%float)] (Some (30, 10)%float)
       (Some (30, 10)%float) true true, Ok tt).
Proof.
  apply (lineTo_double_changes_nothing int_round_py2 _ (30, 10)%float
           (30, 10)%float); reflexivity.
Defined.

(** C8.  [addComponent] makes one [addComponent] call on the other pen,
    with the same glyph name and the same transformation, and changes no
    other field of the pen; it cannot raise. *)
Theorem addComponent_forwarded_unchanged :
  forall (glyphName : string) (transformation : Transformation)
         (self : FlattenPen),
    addComponent glyphName transformation self
    = (mkFlattenPen (approximateSegmentLength self)
         (otherPen self ++ [AddComponent glyphName transformation])
         (currentPt self) (firstPt self) (segmentLines self)
         (filterDoubles self), Ok tt).
Proof. intros. reflexivity. Qed.

(** ** [_closePath] *)

Lemma closePath_after_lineTo (int_round : float -> Res Z)
    (self self1 : FlattenPen) :
  _lineTo int_round (firstPt self) self = (self1, Ok tt) ->
  _closePath int_round self = (drew self1 [ClosePath] None, Ok tt).
Proof.
  intros H. unfold _closePath, lineTo, bind. rewrite H. reflexivity.
Qed.

Lemma closePath_lineTo_raises (int_round : float -> Res Z)
    (self self1 : FlattenPen) (e : PyExc) :
  _lineTo int_round (firstPt self) self = (self1, Raise e) ->
  _closePath int_round self = (self1, Raise e).
Proof.
  intros H. unfold _closePath, lineTo, bind. rewrite H. reflexivity.
Qed.

(** C5, as the code has it.  [closePath] first runs the pen's own [lineTo]
    to [firstPt]; when that returns, one [closePath] is made on the other
    pen after whatever the [lineTo] drew, and [currentPt] is cleared.
    [firstPt] is not cleared: it keeps the point of the last [moveTo]. *)
Theorem closePath_draws_closing_edge_then_closes :
  forall (int_round : float -> Res Z) (self self1 : FlattenPen)
         (cur first : Point),
    currentPt self = Some cur ->
    firstPt self = Some first ->
    _lineTo int_round (Some first) self = (self1, Ok tt) ->
    snd (_closePath int_round self) = Ok tt
    /\ otherPen (fst (_closePath int_round self))
       = otherPen self1 ++ [ClosePath]
    /\ currentPt (fst (_closePath int_round self)) = None
    /\ firstPt (fst (_closePath int_round self)) = Some first.
Proof.
  intros int_round self self1 cur first Hcur Hfirst Hline.
  rewrite <- Hfirst in Hline.
  rewrite (closePath_after_lineTo _ _ _ Hline). simpl.
  repeat split.
  pose proof (lineTo_keeps_firstPt int_round (firstPt self) (firstPt self)
                self eq_refl) as Hkeep.
  rewrite Hline in Hkeep. simpl in Hkeep. rewrite Hkeep. exact Hfirst.
Qed.

Lemma closePath_draws_closing_edge_then_closes_witness :
  snd (_closePath int_round_py2
         (mkFlattenPen 10 [MoveTo (Some (10, 10)%float);
                           LineTo (Some (30, 10)%float)]
            (Some (30, 10)%float) (Some (10, 10)%float) false true)) = Ok tt
  /\ otherPen (fst (_closePath int_round_py2
         (mkFlattenPen 10 [MoveTo (Some (10, 10)%float);
                           LineTo (Some (30, 10)%float)]
            (Some (30, 10)%float) (Some (10, 10)%float) false true)))
     = otherPen (mkFlattenPen 10 [MoveTo (Some (10, 10)%float);
                                  LineTo (Some (30, 10)%float);
                                  LineTo (Some (10, 10)%float)]
                   (Some (10, 10)%float) (Some (10, 10)%float) false true)
       ++ [ClosePath]
  /\ currentPt (fst (_closePath int_round_py2
         (mkFlattenPen 10 [MoveTo (Some (10, 10)%float);
                           LineTo (Some (30, 10)%float)]
            (Some (30, 10)%float) (Some (10, 10)%float) false true))) = None
  /\ firstPt (fst (_closePath int_round_py2
         (mkFlattenPen 10 [MoveTo (Some (10, 10)%float);
                           LineTo (Some (30, 10)%float)]
            (Some (30, 10)%float) (Some (10, 10)%float) false true)))
     = Some (10, 10)%float.
Proof.
  apply (closePath_draws_closing_edge_then_closes int_round_py2 _ _
           (30, 10)%float (10, 10)%float); reflexivity.
Defined.

(** C5 as written fails: after [moveTo((10, 10))], [lineTo((30, 10))] and
    [closePath()], [firstPt] still holds (10, 10). *)
Lemma closePath_keeps_firstPt_counterexample :
  firstPt (fst (draw int_round_py2 estimateCubicCurveLength_polygon
                  [MoveTo (Some (10, 10)%float);
                   LineTo (Some (30, 10)%float);
                   ClosePath]
                  (__init__ 10 false true)))
  <> None.
Proof. vm_compute. discriminate. Qed.

(** ** Calls on a new pen, before any [moveTo] *)

(** C3, as the code has it.  The pen checks nothing before it uses
    [currentPt]; on a new pen a call raises only where a helper has to take
    the coordinates of [None].  [lineTo(pt)] raises, with nothing drawn,
    when [segmentLines] is on, and is forwarded like any line when it is
    off.  [curveTo] raises with nothing drawn, as the length estimate of a
    curve that starts at [None] does.  [closePath] raises with nothing drawn
    only when [filterDoubles] is off and [segmentLines] on: with
    [filterDoubles] on it makes the single call [closePath] on the other
    pen, and with both off the calls [lineTo(None)] and [closePath]. *)
Theorem calls_on_new_pen :
  forall (int_round : float -> Res Z)
         (estimateCubicCurveLength : PyPt -> PyPt -> PyPt -> PyPt -> Res float)
         (e : PyExc) (approximateSegmentLength : float)
         (segmentLines filterDoubles : bool) (pt pt1 pt2 pt3 : Point),
    (forall p1 p2 p3, estimateCubicCurveLength None p1 p2 p3 = Raise e) ->
    _lineTo int_round (Some pt)
      (__init__ approximateSegmentLength segmentLines filterDoubles)
    = (if segmentLines
       then (__init__ approximateSegmentLength segmentLines filterDoubles,
             Raise TypeError)
       else (drew (__init__ approximateSegmentLength segmentLines
                     filterDoubles) [LineTo (Some pt)] (Some pt), Ok tt))
    /\ _curveToOne int_round estimateCubicCurveLength
         (Some pt1) (Some pt2) (Some pt3)
         (__init__ approximateSegmentLength segmentLines filterDoubles)
       = (__init__ approximateSegmentLength segmentLines filterDoubles,
          Raise e)
    /\ _closePath int_round
         (__init__ approximateSegmentLength segmentLines filterDoubles)
       = (if filterDoubles
          then (drew (__init__ approximateSegmentLength segmentLines
                        filterDoubles) [ClosePath] None, Ok tt)
          else if segmentLines
          then (__init__ approximateSegmentLength segmentLines filterDoubles,
                Raise TypeError)
          else (drew (__init__ approximateSegmentLength segmentLines
                        filterDoubles) [LineTo None; ClosePath] None, Ok tt)).
Proof.
  intros int_round est e len sl fd pt pt1 pt2 pt3 Hest.
  split; [| split].
  - unfold _lineTo, __init__. simpl. rewrite andb_false_r.
    destruct sl; reflexivity.
  - unfold _curveToOne, __init__, bind, lift. simpl.
    rewrite Hest. reflexivity.
  - unfold _closePath, lineTo, _lineTo, __init__, bind. simpl.
    destruct fd, sl; reflexivity.
Qed.

Lemma calls_on_new_pen_witness :
  _lineTo int_round_py2 (Some (10, 30)%float) (__init__ 10 true true)
  = (__init__ 10 true true, Raise TypeError)
  /\ _curveToOne int_round_py2 estimateCubicCurveLength_polygon
       (Some (10, 30)%float) (Some (30, 30)%float) (Some (30, 10)%float)
       (__init__ 10 true true)
     = (__init__ 10 true true, Raise TypeError)
  /\ _closePath int_round_py2 (__init__ 10 true true)
     = (drew (__init__ 10 true true) [ClosePath] None, Ok tt).
Proof.
  apply (calls_on_new_pen int_round_py2 estimateCubicCurveLength_polygon
           TypeError 10%float true true).
  intros p1 p2 p3. reflexivity.
Defined.

(** C3 as written fails: with [segmentLines] off (the default of the
    class), [lineTo((10, 30))] on a new pen returns, and the line is drawn
    on the other pen. *)
Lemma lineTo_on_new_pen_counterexample :
  _lineTo int_round_py2 (Some (10, 30)%float) (__init__ 5 false true)
  = (mkFlattenPen 5 [LineTo (Some (10, 30)%float)] (Some (10, 30)%float) None
       false true, Ok tt).
Proof. reflexivity. Qed.

(** ** [_curveToOne] *)

(** The branch of [_curveToOne] that draws one line. *)
Lemma curveToOne_single_line (int_round : float -> Res Z)
    (estimateCubicCurveLength : PyPt -> PyPt -> PyPt -> PyPt -> Res float)
    (self : FlattenPen) (pt1 pt2 pt3 : PyPt) (len est : float) (maxSteps : Z) :
  estimateCubicCurveLength (currentPt self) pt1 pt2 pt3 = Ok len ->
  py_div len (approximateSegmentLength self) = Ok est ->
  int_round est = Ok maxSteps ->
  (maxSteps <? 1) || (py_eq pt1 (currentPt self) && py_eq pt2 pt3) = true ->
  _curveToOne int_round estimateCubicCurveLength pt1 pt2 pt3 self
  = (drew self [LineTo pt3] pt3, Ok tt).
Proof.
  intros Hlen Hest Hround Hbranch.
  unfold _curveToOne, bind, lift. rewrite Hlen, Hest, Hround, Hbranch.
  reflexivity.
Qed.

(** C4, as the code has it.  A cubic whose first control point is the
    current point and whose second control point is its end point is drawn
    as the one line [lineTo(end)], and [currentPt] becomes [end], whatever
    number of steps the segment length asks for; but the number of steps is
    computed first, so this holds when the estimate, its division by the
    segment length and the rounding return. *)
Theorem false_curve_is_one_line :
  forall (int_round : float -> Res Z)
         (estimateCubicCurveLength : PyPt -> PyPt -> PyPt -> PyPt -> Res float)
         (self : FlattenPen) (cur c1 c2 endPt : Point)
         (len est : float) (maxSteps : Z),
    currentPt self = Some cur ->
    pt_eqb c1 cur = true ->
    pt_eqb c2 endPt = true ->
    estimateCubicCurveLength (Some cur) (Some c1) (Some c2) (Some endPt)
    = Ok len ->
    py_div len (approximateSegmentLength self) = Ok est ->
    int_round est = Ok maxSteps ->
    _curveToOne int_round estimateCubicCurveLength
      (Some c1) (Some c2) (Some endPt) self
    = (mkFlattenPen (approximateSegmentLength self)
         (otherPen self ++ [LineTo (Some endPt)]) (Some endPt)
         (firstPt self) (segmentLines self) (filterDoubles self), Ok tt).
Proof.
  intros int_round est0 self cur c1 c2 endPt len est maxSteps
         Hcur H1 H2 Hlen Hest Hround.
  apply (curveToOne_single_line int_round est0 self _ _ _ len est maxSteps).
  - rewrite Hcur. exact Hlen.
  - exact Hest.
  - exact Hround.
  - rewrite Hcur. simpl. rewrite H1, H2. apply orb_true_r.
Qed.

Lemma false_curve_is_one_line_witness :
  _curveToOne int_round_py2 estimateCubicCurveLength_polygon
    (Some (10, 10)%float) (Some (10, 40)%float) (Some (10, 40)%float)
    (mkFlattenPen 10 [MoveTo (Some (10, 10)%float)] (Some (10, 10)%float)
       (Some (10, 10)%float) false true)
  = (mkFlattenPen 10 [MoveTo (Some (10, 10)%float);
                      LineTo (Some (10, 40)%float)]
       (Some (10, 40)%float) (Some (10, 10)%float) false true, Ok tt).
Proof.
  apply (false_curve_is_one_line int_round_py2
           estimateCubicCurveLength_polygon
           (mkFlattenPen 10 [MoveTo (Some (10, 10)%float)]
              (Some (10, 10)%float) (Some (10, 10)%float) false true)
           (10, 10)%float (10, 10)%float (10, 40)%float (10, 40)%float
           30%float 3%float 3);
    reflexivity.
Defined.

(** C4 as written fails: the same false curve from (0, 0) to (10, 0) that is
    drawn as one line with a segment length of 5 raises, with nothing
    drawn, with the smallest positive segment length, 2^-1074: the quotient
    of the two is infinite and cannot be rounded to an integer. *)
Lemma false_curve_tiny_length_counterexample :
  _curveToOne int_round_py2 estimateCubicCurveLength_polygon
    (Some (0, 0)%float) (Some (10, 0)%float) (Some (10, 0)%float)
    (mkFlattenPen 0x1p-1074 [MoveTo (Some (0, 0)%float)] (Some (0, 0)%float)
       (Some (0, 0)%float) false true)
  = (mkFlattenPen 0x1p-1074 [MoveTo (Some (0, 0)%float)] (Some (0, 0)%float)
       (Some (0, 0)%float) false true, Raise OverflowError).
Proof. vm_compute. reflexivity. Qed.

(** C10.  [filterDoubles] is not consulted by [_curveToOne].  A cubic that
    ends at the point the pen is at, and takes the one-line branch (fewer
    than one step, or a false curve), is drawn as [lineTo(end)] with
    [filterDoubles] on, although the same pen drops [lineTo(end)]. *)
Theorem curveTo_ignores_filterDoubles :
  forall (int_round : float -> Res Z)
         (estimateCubicCurveLength : PyPt -> PyPt -> PyPt -> PyPt -> Res float)
         (self : FlattenPen) (cur c1 c2 endPt : Point)
         (len est : float) (maxSteps : Z),
    currentPt self = Some cur ->
    filterDoubles self = true ->
    pt_eqb endPt cur = true ->
    estimateCubicCurveLength (Some cur) (Some c1) (Some c2) (Some endPt)
    = Ok len ->
    py_div len (approximateSegmentLength self) = Ok est ->
    int_round est = Ok maxSteps ->
    maxSteps < 1 \/ (pt_eqb c1 cur = true /\ pt_eqb c2 endPt = true) ->
    _curveToOne int_round estimateCubicCurveLength
      (Some c1) (Some c2) (Some endPt) self
    = (mkFlattenPen (approximateSegmentLength self)
         (otherPen self ++ [LineTo (Some endPt)]) (Some endPt)
         (firstPt self) (segmentLines self) true, Ok tt)
    /\ _lineTo int_round (Some endPt) self = (self, Ok tt).
Proof.
  intros int_round est0 self cur c1 c2 endPt len est maxSteps
         Hcur Hfd Hend Hlen Hest Hround Hbranch.
  split.
  - rewrite <- Hfd.
    apply (curveToOne_single_line int_round est0 self _ _ _ len est maxSteps).
    + rewrite Hcur. exact Hlen.
    + exact Hest.
    + exact Hround.
    + rewrite Hcur. simpl. destruct Hbranch as [Hlt | [H1 H2]].
      * apply Z.ltb_lt in Hlt. rewrite Hlt. reflexivity.
      * rewrite H1, H2. apply orb_true_r.
  - apply lineTo_dropped; [exact Hfd |].
    rewrite Hcur. exact Hend.
Qed.

Lemma curveTo_ignores_filterDoubles_witness :
  _curveToOne int_round_py2 estimateCubicCurveLength_polygon
    (Some (10, 11)%float) (Some (11, 10)%float) (Some (10, 10)%float)
    (mkFlattenPen 10 [MoveTo (Some (10, 10)%float)] (Some (10, 10)%float)
       (Some (10, 10)%float) false true)
  = (mkFlattenPen 10 [MoveTo (Some (10, 10)%float);
                      LineTo (Some (10, 10)%float)]
       (Some (10, 10)%float) (Some (10, 10)%float) false true, Ok tt)
  /\ _lineTo int_round_py2 (Some (10, 10)%float)
       (mkFlattenPen 10 [MoveTo (Some (10, 10)%float)] (Some (10, 10)%float)
          (Some (10, 10)%float) false true)
     = (mkFlattenPen 10 [MoveTo (Some (10, 10)%float)] (Some (10, 10)%float)
          (Some (10, 10)%float) false true, Ok tt).
Proof.
  eapply (curveTo_ignores_filterDoubles int_round_py2
            estimateCubicCurveLength_polygon
            (mkFlattenPen 10 [MoveTo (Some (10, 10)%float)]
               (Some (10, 10)%float) (Some (10, 10)%float) false true)
            (10, 10)%float (10, 11)%float (11, 10)%float (10, 10)%float
            _ _ 0).
  - reflexivity.
  - reflexivity.
  - reflexivity.
  - reflexivity.
  - reflexivity.
  - vm_compute. reflexivity.
  - left. lia.
Defined.

(** ** The loop of [_lineTo] *)

(** A positive segment length is not zero, so dividing by it does not
    raise. *)
Lemma float_pos_nonzero (x : float) :
  PrimFloat.ltb 0 x = true -> float_eq x 0 = false.
Proof.
  unfold float_eq. rewrite FloatAxioms.ltb_spec, FloatAxioms.eqb_spec.
  change (Prim2SF 0) with (S754_zero false).
  destruct (Prim2SF x) as [s | s | | s m e]; simpl;
    try discriminate; try reflexivity; destruct s; try discriminate;
    reflexivity.
Qed.

Lemma py_div_pos (x y : float) :
  PrimFloat.ltb 0 y = true -> py_div x y = Ok (PrimFloat.div x y).
Proof.
  intros H. unfold py_div. rewrite (float_pos_nonzero y H). reflexivity.
Qed.

(** [range(0, n + 1)[1:]] is 1, 2, ..., n. *)
Lemma range_tail (n : Z) :
  tl (range 0 (n + 1)) = map Z.of_nat (seq 1 (Z.to_nat n)).
Proof.
  unfold range. rewrite Z.sub_0_r.
  destruct (Z.leb_spec 0 n) as [Hn | Hn].
  - replace (Z.to_nat (n + 1)) with (S (Z.to_nat n)) by lia.
    change (seq 0 (S (Z.to_nat n))) with (0%nat :: seq 1 (Z.to_nat n)).
    simpl tl. apply map_ext. intros k. lia.
  - replace (Z.to_nat (n + 1)) with 0%nat by lia.
    replace (Z.to_nat n) with 0%nat by lia. reflexivity.
Qed.

Lemma range_tail_length (n : Z) :
  List.length (tl (range 0 (n + 1))) = Z.to_nat n.
Proof. rewrite range_tail, length_map, length_seq. reflexivity. Qed.

(** A loop whose body computes a point and draws a line to it draws the
    lines in the order of the loop and changes nothing else. *)
Lemma for_each_lineTo (l : list Z) (f : Z -> Res PyPt) (g : Z -> PyPt) :
  (forall i, f i = Ok (g i)) ->
  forall self,
    for_each l (fun i => p <- lift (f i) ;; call_otherPen (LineTo p)) self
    = (drew self (map (fun i => LineTo (g i)) l) (currentPt self), Ok tt).
Proof.
  intros Hf. induction l as [| i l IH]; intros self; simpl.
  - unfold ret. rewrite drew_nothing. reflexivity.
  - unfold bind at 1. unfold bind at 1. unfold lift. rewrite Hf.
    simpl. rewrite IH. unfold drew. simpl. rewrite <- app_assoc.
    reflexivity.
Qed.

(** The point that [_lineTo] draws at step [i] of [n], from [a] to [b]. *)
Lemma interpolatePoint_returns (a b : Point) (t : float) :
  interpolatePoint (Some a) (Some b) t
  = Ok (Some (fst a + (fst b - fst a) * t, snd a + (snd b - snd a) * t)%float).
Proof. destruct a, b. reflexivity. Qed.

(** X12.  The number of lines of a cut [lineTo].  With [segmentLines] on, a
    positive segment length S and the pen at A, [lineTo(B)] for B other than
    A draws max(1, n) lines, n being the rounded quotient of the distance by
    S, and leaves [currentPt] at B.  When n is below 1 the one line goes to
    B itself.  Otherwise the last line goes to the point interpolated at the
    factor n * (1.0 / n), which the pen does not replace by B. *)
Theorem lineTo_cuts_into_segments :
  forall (int_round : float -> Res Z) (self : FlattenPen) (A B : Point)
         (d : float) (n : Z),
    currentPt self = Some A ->
    segmentLines self = true ->
    pt_eqb B A = false ->
    PrimFloat.ltb 0 (approximateSegmentLength self) = true ->
    distance (Some A) (Some B) = Ok d ->
    int_round (PrimFloat.div d (approximateSegmentLength self)) = Ok n ->
    exists pts : list PyPt,
      _lineTo int_round (Some B) self
      = (mkFlattenPen (approximateSegmentLength self)
           (otherPen self ++ map LineTo pts) (Some B) (firstPt self)
           true (filterDoubles self), Ok tt)
      /\ List.length pts = Z.to_nat (Z.max 1 n)
      /\ (if n <? 1 then last pts None = Some B
          else interpolatePoint (Some A) (Some B)
                 (float_of_int n * (1 / float_of_int n))%float
               = Ok (last pts None)).
Proof.
  intros int_round self A B d n Hcur Hsl Hneq Hpos Hd Hround.
  unfold _lineTo. rewrite Hcur, Hsl. simpl py_eq. rewrite Hneq, andb_false_r.
  simpl negb. cbv iota.
  unfold bind at 1. unfold lift at 1. rewrite Hd.
  unfold bind at 1. unfold lift at 1. rewrite (py_div_pos _ _ Hpos).
  unfold bind at 1. unfold lift at 1. rewrite Hround.
  destruct (Z.ltb_spec n 1) as [Hn | Hn].
  - exists [Some B]. split; [| split].
    + rewrite <- Hsl. reflexivity.
    + replace (Z.max 1 n) with 1 by lia. reflexivity.
    + reflexivity.
  - set (step := (1 / float_of_int n)%float).
    set (g := fun i : Z =>
                Some (fst A + (fst B - fst A) * (float_of_int i * step),
                      snd A + (snd B - snd A) * (float_of_int i * step))%float).
    exists (map g (tl (range 0 (n + 1)))). split; [| split].
    + unfold bind at 1.
      rewrite (for_each_lineTo _ _ g)
        by (intro i; apply interpolatePoint_returns).
      unfold drew, set_currentPt. simpl. rewrite map_map, <- Hsl.
      reflexivity.
    + rewrite length_map, range_tail_length. f_equal. lia.
    + rewrite interpolatePoint_returns. f_equal. symmetry.
      rewrite range_tail.
      replace (Z.to_nat n) with (S (Z.to_nat (n - 1))) by lia.
      rewrite seq_S, !map_app. cbn [map]. rewrite last_last.
      unfold g. replace (Z.of_nat (1 + Z.to_nat (n - 1))) with n by lia.
      reflexivity.
Qed.

Lemma lineTo_cuts_into_segments_witness :
  exists pts : list PyPt,
    _lineTo int_round_py2 (Some (10, 30)%float)
      (mkFlattenPen 10 [MoveTo (Some (10, 10)%float)] (Some (10, 10)%float)
         (Some (10, 10)%float) true true)
    = (mkFlattenPen 10 ([MoveTo (Some (10, 10)%float)] ++ map LineTo pts)
         (Some (10, 30)%float) (Some (10, 10)%float) true true, Ok tt)
    /\ List.length pts = Z.to_nat (Z.max 1 2)
    /\ interpolatePoint (Some (10, 10)%float) (Some (10, 30)%float)
         (float_of_int 2 * (1 / float_of_int 2))%float
       = Ok (last pts None).
Proof.
  apply (lineTo_cuts_into_segments int_round_py2
           (mkFlattenPen 10 [MoveTo (Some (10, 10)%float)]
              (Some (10, 10)%float) (Some (10, 10)%float) true true)
           (10, 10)%float (10, 30)%float 20%float 2);
    reflexivity.
Defined.

(** C2, where the code misses it.  The last line of a cut [lineTo] is meant
    to reach the target: the loop runs up to the factor of step
    i = maxSteps, and the other branches of [_lineTo] draw to [pt] itself.
    It does not always.  After [moveTo((0, 0))], with segment length 1,
    [lineTo((49, 0))] draws 49 lines, as many as the distance asks for, but
    the factor of the last one, 49 * (1.0 / 49), is the float just below 1,
    and the line goes to (48.99999999999999, 0), not to (49, 0). *)
Lemma lineTo_last_point_counterexample :
  List.length
    (filter is_LineTo
       (otherPen (fst (draw int_round_py2 estimateCubicCurveLength_polygon
                         [MoveTo (Some (0, 0)%float);
                          LineTo (Some (49, 0)%float)]
                         (__init__ 1 true true))))) = 49%nat
  /\ last (otherPen (fst (draw int_round_py2 estimateCubicCurveLength_polygon
                            [MoveTo (Some (0, 0)%float);
                             LineTo (Some (49, 0)%float)]
                            (__init__ 1 true true)))) ClosePath
     <> LineTo (Some (49, 0)%float).
Proof.
  split.
  - vm_compute. reflexivity.
  - intros H.
    apply (f_equal (fun c => match c with
                             | LineTo (Some (x, _)) => float_eq x 49
                             | _ => true
                             end)) in H.
    vm_compute in H. discriminate H.
Qed.

(** ** Paths of straight lines, with [segmentLines] off *)

Lemma draw_cons (int_round : float -> Res Z)
    (estimateCubicCurveLength : PyPt -> PyPt -> PyPt -> PyPt -> Res float)
    (c : PenCall) (rest : list PenCall) (self : FlattenPen) :
  draw int_round estimateCubicCurveLength (c :: rest) self
  = match call int_round estimateCubicCurveLength c self with
    | (self', Ok _) => draw int_round estimateCubicCurveLength rest self'
    | (self', Raise e) => (self', Raise e)
    end.
Proof. reflexivity. Qed.

Lemma drew_drew (self : FlattenPen) (out1 out2 : list PenCall)
    (cur1 cur2 : PyPt) :
  drew (drew self out1 cur1) out2 cur2 = drew self (out1 ++ out2) cur2.
Proof. unfold drew. simpl. rewrite app_assoc. reflexivity. Qed.

(** [closePath] when lines are not cut: the closing edge is one line to
    [firstPt], unless it is a double that is filtered. *)
Lemma closePath_uncut (int_round : float -> Res Z) (self : FlattenPen) :
  segmentLines self = false ->
  _closePath int_round self
  = (drew self
       (if filterDoubles self && py_eq (firstPt self) (currentPt self)
        then [ClosePath] else [LineTo (firstPt self); ClosePath])
       None, Ok tt).
Proof.
  intros Hsl.
  destruct (filterDoubles self && py_eq (firstPt self) (currentPt self))
    eqn:Hdrop.
  - apply andb_true_iff in Hdrop as [Hfd Heq].
    apply closePath_after_lineTo. apply lineTo_dropped; assumption.
  - rewrite (closePath_after_lineTo int_round self
               (drew self [LineTo (firstPt self)] (firstPt self))).
    + rewrite drew_drew. reflexivity.
    + apply lineTo_forwarded; assumption.
Qed.

(** A path without [closePath] has no closing edge to write out. *)
Lemma withClosingEdges_open (first : PyPt) (calls : list PenCall) :
  forallb (fun c => match c with ClosePath => false | _ => true end) calls
  = true ->
  withClosingEdges first calls = calls.
Proof.
  revert first. induction calls as [| c rest IH]; intros first H.
  - reflexivity.
  - simpl in H. apply andb_true_iff in H as [Hc Hrest].
    destruct c; simpl; try discriminate Hc; rewrite IH; auto.
Qed.

(** The calls that reach the other pen when lines are not cut. *)
Lemma draw_uncut_lines (int_round : float -> Res Z)
    (est : PyPt -> PyPt -> PyPt -> PyPt -> Res float)
    (calls : list PenCall) :
  forall self : FlattenPen,
    forallb is_line_call calls = true ->
    segmentLines self = false ->
    snd (draw int_round est calls self) = Ok tt
    /\ otherPen (fst (draw int_round est calls self))
       = otherPen self
         ++ (if filterDoubles self
             then withoutDoubles (currentPt self)
                    (withClosingEdges (firstPt self) calls)
             else withClosingEdges (firstPt self) calls).
Proof.
  induction calls as [| c rest IH]; intros self Hcalls Hsl.
  - simpl. destruct (filterDoubles self); simpl; rewrite app_nil_r;
      split; reflexivity.
  - simpl in Hcalls. apply andb_true_iff in Hcalls as [Hc Hrest].
    rewrite draw_cons.
    destruct c as [pt | pt | pt1 pt2 pt3 | | | g t]; try discriminate Hc;
      cbn [call].
    + (* moveTo *)
      change (_moveTo pt self)
        with (mkFlattenPen (approximateSegmentLength self)
                (otherPen self ++ [MoveTo pt]) pt pt (segmentLines self)
                (filterDoubles self), Ok tt).
      cbv iota.
      match goal with |- context [draw _ _ rest ?s] =>
        destruct (IH s Hrest Hsl) as [Hok Hout] end.
      rewrite Hok, Hout. cbn [otherPen filterDoubles currentPt firstPt].
      split; [reflexivity |]. rewrite <- app_assoc.
      destruct (filterDoubles self); reflexivity.
    + (* lineTo *)
      unfold lineTo.
      destruct (filterDoubles self && py_eq pt (currentPt self)) eqn:Hdrop.
      * apply andb_true_iff in Hdrop as [Hfd Heq].
        rewrite (lineTo_dropped int_round pt self Hfd Heq). cbv iota.
        destruct (IH self Hrest Hsl) as [Hok Hout].
        rewrite Hok, Hout, Hfd. cbn [withClosingEdges withoutDoubles].
        rewrite Heq. split; reflexivity.
      * rewrite (lineTo_forwarded int_round pt self Hdrop Hsl). cbv iota.
        match goal with |- context [draw _ _ rest ?s] =>
          destruct (IH s Hrest Hsl) as [Hok Hout] end.
        rewrite Hok, Hout.
        cbn [drew otherPen filterDoubles currentPt firstPt
             withClosingEdges withoutDoubles].
        split; [reflexivity |]. rewrite <- app_assoc.
        destruct (filterDoubles self); [| reflexivity].
        simpl in Hdrop. rewrite Hdrop. reflexivity.
    + (* closePath *)
      rewrite (closePath_uncut int_round self Hsl). cbv iota.
      match goal with |- context [draw _ _ rest ?s] =>
        destruct (IH s Hrest Hsl) as [Hok Hout] end.
      rewrite Hok, Hout.
      cbn [drew otherPen filterDoubles currentPt firstPt
           withClosingEdges withoutDoubles].
      split; [reflexivity |]. rewrite <- app_assoc.
      destruct (filterDoubles self); simpl andb.
      * destruct (py_eq (firstPt self) (currentPt self)); reflexivity.
      * reflexivity.
    + (* endPath *)
      change (_endPath self)
        with (mkFlattenPen (approximateSegmentLength self)
                (otherPen self ++ [EndPath]) None (firstPt self)
                (segmentLines self) (filterDoubles self), Ok tt).
      cbv iota.
      match goal with |- context [draw _ _ rest ?s] =>
        destruct (IH s Hrest Hsl) as [Hok Hout] end.
      rewrite Hok, Hout. cbn [otherPen filterDoubles currentPt firstPt].
      split; [reflexivity |]. rewrite <- app_assoc.
      destruct (filterDoubles self); reflexivity.
Qed.

(** C7, as the code has it.  With [segmentLines] off, a path of [moveTo],
    [lineTo], [closePath] and [endPath] calls is drawn without an exception,
    and the other pen receives the calls of the path in their order, with a
    [lineTo] to the start of the contour added before every [closePath],
    and, when [filterDoubles] is on, without the [lineTo]s (given or added)
    that go to the point the pen is at.  The [lineTo]s that are drawn have
    the points they were given.  In particular, with [filterDoubles] off
    and no [closePath] in the path, the other pen receives the very calls
    of the path. *)
Theorem uncut_lines_are_forwarded :
  forall (int_round : float -> Res Z)
         (estimateCubicCurveLength : PyPt -> PyPt -> PyPt -> PyPt -> Res float)
         (calls : list PenCall) (self : FlattenPen),
    forallb is_line_call calls = true ->
    segmentLines self = false ->
    snd (draw int_round estimateCubicCurveLength calls self) = Ok tt
    /\ otherPen (fst (draw int_round estimateCubicCurveLength calls self))
       = otherPen self
         ++ (if filterDoubles self
             then withoutDoubles (currentPt self)
                    (withClosingEdges (firstPt self) calls)
             else withClosingEdges (firstPt self) calls)
    /\ (filterDoubles self = false ->
        forallb (fun c => match c with ClosePath => false | _ => true end)
          calls = true ->
        otherPen (fst (draw int_round estimateCubicCurveLength calls self))
        = otherPen self ++ calls).
Proof.
  intros int_round est calls self Hcalls Hsl.
  destruct (draw_uncut_lines int_round est calls self Hcalls Hsl)
    as [Hok Hout].
  split; [exact Hok | split; [exact Hout |]].
  intros Hfd Hopen. rewrite Hout, Hfd, withClosingEdges_open by exact Hopen.
  reflexivity.
Qed.

Lemma uncut_lines_are_forwarded_witness :
  (snd (draw int_round_py2 estimateCubicCurveLength_polygon testGlyph_calls
          (__init__ 10 false true)) = Ok tt
   /\ otherPen (fst (draw int_round_py2 estimateCubicCurveLength_polygon
                       testGlyph_calls (__init__ 10 false true)))
      = [] ++ [MoveTo (Some (10, 10)%float);
               LineTo (Some (10, 30)%float);
               LineTo (Some (30, 30)%float);
               LineTo (Some (30, 10)%float);
               LineTo (Some (10, 10)%float);
               ClosePath])
  /\ otherPen (fst (draw int_round_py2 estimateCubicCurveLength_polygon
                      [MoveTo (Some (10, 10)%float);
                       LineTo (Some (10, 10)%float);
                       LineTo (Some (30, 10)%float);
                       EndPath]
                      (__init__ 10 false false)))
     = [] ++ [MoveTo (Some (10, 10)%float);
              LineTo (Some (10, 10)%float);
              LineTo (Some (30, 10)%float);
              EndPath].
Proof.
  split.
  - destruct (uncut_lines_are_forwarded int_round_py2
                estimateCubicCurveLength_polygon testGlyph_calls
                (__init__ 10 false true) eq_refl eq_refl) as [Hok [Hout _]].
    split; [exact Hok | exact Hout].
  - destruct (uncut_lines_are_forwarded int_round_py2
                estimateCubicCurveLength_polygon
                [MoveTo (Some (10, 10)%float);
                 LineTo (Some (10, 10)%float);
                 LineTo (Some (30, 10)%float);
                 EndPath]
                (__init__ 10 false false) eq_refl eq_refl) as [_ [_ Hsame]].
    apply Hsame; reflexivity.
Defined.

(** C7 as written fails: for the closed square of the doctests, drawn with
    [segmentLines] off, the other pen receives four [lineTo]s where the path
    has three; the fourth is the closing edge, back to (10, 10). *)
Lemma uncut_lines_count_counterexample :
  filter is_LineTo
    (otherPen (fst (draw int_round_py2 estimateCubicCurveLength_polygon
                      testGlyph_calls (__init__ 10 false true))))
  <> filter is_LineTo testGlyph_calls.
Proof.
  intros H. apply (f_equal (@List.length PenCall)) in H.
  vm_compute in H. discriminate H.
Qed.

(** ** [flattenGlyph] *)

(** C9, as the code has it.  [flattenGlyph] returns a glyph without
    contours as it is: none of the drawing, clearing and replaying
    operations has a part in the result.  For a glyph with contours it draws
    the glyph into a new FlattenPen (with the given segment length and
    [segmentLines], [filterDoubles] on) whose calls are recorded; when the
    drawing returns, it clears the glyph and replays the recorded calls into
    it; when the drawing raises, so does [flattenGlyph], and the glyph is
    neither cleared nor redrawn. *)
Theorem flattenGlyph_empty_or_redrawn :
  forall (int_round : float -> Res Z)
         (estimateCubicCurveLength : PyPt -> PyPt -> PyPt -> PyPt -> Res float)
         (Glyph : Type) (glyph_len : Glyph -> nat)
         (glyph_draw : Glyph -> list PenCall) (glyph_clear : Glyph -> Glyph)
         (Data : Type) (DataPointPen : Data)
         (SegmentToPointPen : list PenCall -> Data -> Data)
         (data_draw : Data -> Glyph -> Glyph)
         (aGlyph : Glyph) (threshold : float) (segmentLines : bool),
    (glyph_len aGlyph = 0%nat ->
     flattenGlyph int_round estimateCubicCurveLength Glyph glyph_len
       glyph_draw glyph_clear Data DataPointPen SegmentToPointPen data_draw
       aGlyph threshold segmentLines
     = (aGlyph, Ok tt))
    /\ (glyph_len aGlyph <> 0%nat ->
        forall filterpen : FlattenPen,
          draw int_round estimateCubicCurveLength (glyph_draw aGlyph)
            (__init__ threshold segmentLines true)
          = (filterpen, Ok tt) ->
          flattenGlyph int_round estimateCubicCurveLength Glyph glyph_len
            glyph_draw glyph_clear Data DataPointPen SegmentToPointPen
            data_draw aGlyph threshold segmentLines
          = (data_draw
               (SegmentToPointPen (otherPen filterpen) DataPointPen)
               (glyph_clear aGlyph), Ok tt))
    /\ (glyph_len aGlyph <> 0%nat ->
        forall (filterpen : FlattenPen) (e : PyExc),
          draw int_round estimateCubicCurveLength (glyph_draw aGlyph)
            (__init__ threshold segmentLines true)
          = (filterpen, Raise e) ->
          flattenGlyph int_round estimateCubicCurveLength Glyph glyph_len
            glyph_draw glyph_clear Data DataPointPen SegmentToPointPen
            data_draw aGlyph threshold segmentLines
          = (aGlyph, Raise e)).
Proof.
  intros. unfold flattenGlyph. split; [| split].
  - intros Hlen. rewrite Hlen. reflexivity.
  - intros Hlen filterpen Hdraw.
    destruct (Nat.eqb_spec (glyph_len aGlyph) 0) as [H0 | _];
      [contradiction |].
    rewrite Hdraw. reflexivity.
  - intros Hlen filterpen e Hdraw.
    destruct (Nat.eqb_spec (glyph_len aGlyph) 0) as [H0 | _];
      [contradiction |].
    rewrite Hdraw. reflexivity.
Qed.

Lemma flattenGlyph_empty_or_redrawn_witness :
  callsGlyph_flatten [AddComponent "a" (1, 0, 0, 1, 0, 0)%float] 10 true
  = ([AddComponent "a" (1, 0, 0, 1, 0, 0)%float], Ok tt)
  /\ callsGlyph_flatten testGlyph_calls 10 true
     = ([MoveTo (Some (10, 10)%float);
         LineTo (Some (10, 20)%float);
         LineTo (Some (10, 30)%float);
         LineTo (Some (20, 30)%float);
         LineTo (Some (30, 30)%float);
         LineTo (Some (30, 20)%float);
         LineTo (Some (30, 10)%float);
         LineTo (Some (20, 10)%float);
         LineTo (Some (10, 10)%float);
         ClosePath], Ok tt)
  /\ callsGlyph_flatten
       [MoveTo (Some (0, 0)%float); LineTo (Some (0x1p700, 0)%float); EndPath]
       10 true
     = ([MoveTo (Some (0, 0)%float); LineTo (Some (0x1p700, 0)%float);
         EndPath], Raise OverflowError).
Proof.
  split; [| split].
  - apply (flattenGlyph_empty_or_redrawn int_round_py2
             estimateCubicCurveLength_polygon (list PenCall) callsGlyph_len
             (fun g => g) (fun _ => []) (list PenCall) []
             (fun calls data => data ++ calls) (fun data g => g ++ data)
             [AddComponent "a" (1, 0, 0, 1, 0, 0)%float] 10%float true).
    reflexivity.
  - refine (proj1 (proj2 (flattenGlyph_empty_or_redrawn int_round_py2
             estimateCubicCurveLength_polygon (list PenCall) callsGlyph_len
             (fun g => g) (fun _ => []) (list PenCall) []
             (fun calls data => data ++ calls) (fun data g => g ++ data)
             testGlyph_calls 10%float true)) _
             (fst (draw int_round_py2 estimateCubicCurveLength_polygon
                     testGlyph_calls (__init__ 10 true true))) _).
    + vm_compute. discriminate.
    + vm_compute. reflexivity.
  - refine (proj2 (proj2 (flattenGlyph_empty_or_redrawn int_round_py2
             estimateCubicCurveLength_polygon (list PenCall) callsGlyph_len
             (fun g => g) (fun _ => []) (list PenCall) []
             (fun calls data => data ++ calls) (fun data g => g ++ data)
             [MoveTo (Some (0, 0)%float); LineTo (Some (0x1p700, 0)%float);
              EndPath]
             10%float true)) _
             (fst (draw int_round_py2 estimateCubicCurveLength_polygon
                     [MoveTo (Some (0, 0)%float);
                      LineTo (Some (0x1p700, 0)%float); EndPath]
                     (__init__ 10 true true))) OverflowError _).
    + vm_compute. discriminate.
    + vm_compute. reflexivity.
Defined.

(** C9 as written fails: with the smallest positive segment length,
    2^-1074, the square of the doctests is drawn into the filter, whose
    first [lineTo] raises (the number of steps is infinite); the glyph is
    neither cleared nor redrawn. *)
Lemma flattenGlyph_raises_counterexample :
  callsGlyph_flatten testGlyph_calls 0x1p-1074 true
  = (testGlyph_calls, Raise OverflowError).
Proof. vm_compute. reflexivity. Qed.

(** * Further properties *)

(** ** What a call draws, and what it leaves *)

(** The loop of [_curveToOne] when a point is [None]: the first step
    raises. *)
Lemma for_each_raises (l : list Z) (f : Z -> Res PyPt) (e : PyExc) :
  (forall i, f i = Raise e) ->
  forall self,
    for_each l (fun i => p <- lift (f i) ;; call_otherPen (LineTo p)) self
    = (self, match l with [] => Ok tt | _ :: _ => Raise e end).
Proof.
  intros Hf self. destruct l as [| i l]; simpl.
  - reflexivity.
  - unfold bind, lift. rewrite Hf. reflexivity.
Qed.

Lemma interpolatePoint_total (a b : PyPt) (d : float) :
  distance a b = Ok d ->
  exists g, forall t, interpolatePoint a b t = Ok (g t).
Proof.
  destruct a as [[xa ya] |], b as [[xb yb] |]; simpl; try discriminate.
  intros _. eexists (fun t => _). intros t. reflexivity.
Qed.

Lemma getCubicPoint_uniform (p0 p1 p2 p3 : PyPt) :
  (exists g, forall t, getCubicPoint t p0 p1 p2 p3 = Ok (g t))
  \/ (forall t, getCubicPoint t p0 p1 p2 p3 = Raise TypeError).
Proof.
  destruct p0 as [[x0 y0] |]; [| right; reflexivity].
  destruct p1 as [[x1 y1] |]; [| right; reflexivity].
  destruct p2 as [[x2 y2] |]; [| right; reflexivity].
  destruct p3 as [[x3 y3] |]; [| right; reflexivity].
  left. eexists (fun t => _). intros t. reflexivity.
Qed.

Lemma range_tail_nonempty (n : Z) : 1 <= n -> tl (range 0 (n + 1)) <> [].
Proof.
  intros Hn H. apply (f_equal (@List.length Z)) in H.
  rewrite range_tail_length in H. simpl in H. lia.
Qed.

(** What [_lineTo] has done when it returns or raises. *)
Lemma lineTo_outcome (int_round : float -> Res Z) (pt : PyPt)
    (self : FlattenPen) :
  (_lineTo int_round pt self = (self, Ok tt)
   /\ filterDoubles self = true /\ py_eq pt (currentPt self) = true)
  \/ (exists pts, pts <> []
       /\ _lineTo int_round pt self = (drew self (map LineTo pts) pt, Ok tt))
  \/ (exists e, _lineTo int_round pt self = (self, Raise e)).
Proof.
  destruct (filterDoubles self && py_eq pt (currentPt self)) eqn:Hdrop.
  { left. apply andb_true_iff in Hdrop as [Hfd Heq].
    split; [apply lineTo_dropped; assumption | split; assumption]. }
  right. destruct (segmentLines self) eqn:Hsl.
  2:{ left. exists [pt]. split; [discriminate |].
      apply lineTo_forwarded; assumption. }
  destruct (distance (currentPt self) pt) as [d | e] eqn:Hd.
  2:{ right. exists e. unfold _lineTo. rewrite Hdrop, Hsl.
      unfold bind, lift. rewrite Hd. reflexivity. }
  destruct (py_div d (approximateSegmentLength self)) as [q | e] eqn:Hq.
  2:{ right. exists e. unfold _lineTo. rewrite Hdrop, Hsl.
      unfold bind, lift. rewrite Hd, Hq. reflexivity. }
  destruct (int_round q) as [n | e] eqn:Hr.
  2:{ right. exists e. unfold _lineTo. rewrite Hdrop, Hsl.
      unfold bind, lift. rewrite Hd, Hq, Hr. reflexivity. }
  left. destruct (Z.ltb_spec n 1) as [Hn | Hn].
  - exists [pt]. split; [discriminate |].
    unfold _lineTo. rewrite Hdrop, Hsl. unfold bind, lift.
    rewrite Hd, Hq, Hr. apply Z.ltb_lt in Hn. rewrite Hn. reflexivity.
  - destruct (interpolatePoint_total _ _ _ Hd) as [g Hg].
    exists (map (fun i => g (float_of_int i * (1 / float_of_int n))%float)
              (tl (range 0 (n + 1)))).
    split.
    + intros H. apply map_eq_nil in H. exact (range_tail_nonempty n Hn H).
    + unfold _lineTo. rewrite Hdrop, Hsl. simpl negb. cbv iota.
      unfold bind at 1. unfold lift at 1. rewrite Hd.
      unfold bind at 1. unfold lift at 1. rewrite Hq.
      unfold bind at 1. unfold lift at 1. rewrite Hr.
      apply Z.ltb_ge in Hn. rewrite Hn. unfold bind at 1.
      rewrite (for_each_lineTo _ _
                 (fun i => g (float_of_int i * (1 / float_of_int n))%float))
        by (intro i; apply Hg).
      unfold drew, set_currentPt. simpl. rewrite map_map. reflexivity.
Qed.

(** What [_curveToOne] has done when it returns or raises. *)
Lemma curveToOne_outcome (int_round : float -> Res Z)
    (est : PyPt -> PyPt -> PyPt -> PyPt -> Res float)
    (pt1 pt2 pt3 : PyPt) (self : FlattenPen) :
  (exists pts, pts <> []
     /\ _curveToOne int_round est pt1 pt2 pt3 self
        = (drew self (map LineTo pts) pt3, Ok tt))
  \/ (exists e, _curveToOne int_round est pt1 pt2 pt3 self = (self, Raise e)).
Proof.
  destruct (est (currentPt self) pt1 pt2 pt3) as [len | e] eqn:Hlen.
  2:{ right. exists e. unfold _curveToOne, bind, lift. rewrite Hlen.
      reflexivity. }
  destruct (py_div len (approximateSegmentLength self)) as [q | e] eqn:Hq.
  2:{ right. exists e. unfold _curveToOne, bind, lift. rewrite Hlen, Hq.
      reflexivity. }
  destruct (int_round q) as [n | e] eqn:Hr.
  2:{ right. exists e. unfold _curveToOne, bind, lift. rewrite Hlen, Hq, Hr.
      reflexivity. }
  destruct ((n <? 1) || (py_eq pt1 (currentPt self) && py_eq pt2 pt3))
    eqn:Hbranch.
  { left. exists [pt3]. split; [discriminate |].
    apply (curveToOne_single_line int_round est self _ _ _ len q n);
      assumption. }
  apply orb_false_iff in Hbranch as [Hn Hfalse]. apply Z.ltb_ge in Hn.
  destruct (getCubicPoint_uniform (currentPt self) pt1 pt2 pt3)
    as [[g Hg] | Hraise].
  - left.
    exists (map (fun i => g (float_of_int i * (1 / float_of_int n))%float)
              (tl (range 0 (n + 1)))).
    split.
    + intros H. apply map_eq_nil in H. exact (range_tail_nonempty n Hn H).
    + unfold _curveToOne.
      unfold bind at 1. unfold lift at 1. rewrite Hlen.
      unfold bind at 1. unfold lift at 1. rewrite Hq.
      unfold bind at 1. unfold lift at 1. rewrite Hr.
      rewrite Hfalse. apply Z.ltb_ge in Hn. rewrite Hn. change (false || false) with false. cbv iota.
      unfold bind at 1.
      rewrite (for_each_lineTo _ _
                 (fun i => g (float_of_int i * (1 / float_of_int n))%float))
        by (intro i; apply Hg).
      unfold drew, set_currentPt. simpl. rewrite map_map. reflexivity.
  - right. exists TypeError. unfold _curveToOne.
    unfold bind at 1. unfold lift at 1. rewrite Hlen.
    unfold bind at 1. unfold lift at 1. rewrite Hq.
    unfold bind at 1. unfold lift at 1. rewrite Hr.
    rewrite Hfalse. pose proof Hn as Hn'. apply Z.ltb_ge in Hn'.
    rewrite Hn'. change (false || false) with false. cbv iota.
    unfold bind at 1.
    rewrite (for_each_raises _ _ TypeError) by (intro i; apply Hraise).
    destruct (tl (range 0 (n + 1))) eqn:Htl; [| reflexivity].
    exfalso. exact (range_tail_nonempty n Hn Htl).
Qed.

(** X1.  A call that raises has drawn nothing on the other pen and has
    changed no field of the pen: every exception of the filter comes before
    the first call the method makes on the other pen. *)
Theorem raising_call_changes_nothing :
  forall (int_round : float -> Res Z)
         (estimateCubicCurveLength : PyPt -> PyPt -> PyPt -> PyPt -> Res float)
         (c : PenCall) (self self' : FlattenPen) (e : PyExc),
    call int_round estimateCubicCurveLength c self = (self', Raise e) ->
    self' = self.
Proof.
  intros int_round est c self self' e H.
  destruct c as [pt | pt | pt1 pt2 pt3 | | | g t]; cbn [call] in H.
  - discriminate H.
  - unfold lineTo in H.
    destruct (lineTo_outcome int_round pt self)
      as [[Hd _] | [[pts [_ Hd]] | [e' Hd]]];
      rewrite Hd in H; inversion H; reflexivity.
  - destruct (curveToOne_outcome int_round est pt1 pt2 pt3 self)
      as [[pts [_ Hd]] | [e' Hd]];
      rewrite Hd in H; inversion H; reflexivity.
  - destruct (lineTo_outcome int_round (firstPt self) self)
      as [[Hd _] | [[pts [_ Hd]] | [e' Hd]]].
    + rewrite (closePath_after_lineTo _ _ _ Hd) in H. discriminate H.
    + rewrite (closePath_after_lineTo _ _ _ Hd) in H. discriminate H.
    + rewrite (closePath_lineTo_raises _ _ _ _ Hd) in H.
      inversion H. reflexivity.
  - discriminate H.
  - discriminate H.
Qed.

Lemma raising_call_changes_nothing_witness :
  call int_round_py2 estimateCubicCurveLength_polygon
    (CurveTo (Some (10, 30)%float) (Some (30, 30)%float)
       (Some (30, 10)%float))
    (mkFlattenPen 0 [MoveTo (Some (10, 10)%float)] (Some (10, 10)%float)
       (Some (10, 10)%float) true true)
  = (mkFlattenPen 0 [MoveTo (Some (10, 10)%float)] (Some (10, 10)%float)
       (Some (10, 10)%float) true true, Raise ZeroDivisionError)
  /\ mkFlattenPen 0 [MoveTo (Some (10, 10)%float)] (Some (10, 10)%float)
       (Some (10, 10)%float) true true
     = mkFlattenPen 0 [MoveTo (Some (10, 10)%float)] (Some (10, 10)%float)
         (Some (10, 10)%float) true true.
Proof.
  split; [reflexivity |].
  apply (raising_call_changes_nothing int_round_py2
           estimateCubicCurveLength_polygon
           (CurveTo (Some (10, 30)%float) (Some (30, 30)%float)
              (Some (30, 10)%float))
           _ _ ZeroDivisionError).
  reflexivity.
Defined.

(** X2.  When [lineTo(pt)] returns, either it was a filtered double and the
    pen is as before, or it made one or more calls on the other pen, all of
    them [lineTo], and [currentPt] is [pt] itself, not a computed point. *)
Theorem lineTo_returns_at_target :
  forall (int_round : float -> Res Z) (pt : PyPt) (self self' : FlattenPen),
    _lineTo int_round pt self = (self', Ok tt) ->
    (self' = self /\ filterDoubles self = true
     /\ py_eq pt (currentPt self) = true)
    \/ (exists pts : list PyPt,
          pts <> []
          /\ otherPen self' = otherPen self ++ map LineTo pts
          /\ currentPt self' = pt
          /\ firstPt self' = firstPt self).
Proof.
  intros int_round pt self self' H.
  destruct (lineTo_outcome int_round pt self)
    as [[Hd [Hfd Heq]] | [[pts [Hne Hd]] | [e' Hd]]];
    rewrite Hd in H; inversion H; subst.
  - left. repeat split; assumption.
  - right. exists pts. repeat split. exact Hne.
Qed.

Lemma lineTo_returns_at_target_witness :
  (mkFlattenPen 10 [MoveTo (Some (10, 10)%float);
                    LineTo (Some (10, 20)%float);
                    LineTo (Some (10, 30)%float)]
     (Some (10, 30)%float) (Some (10, 10)%float) true true
   = mkFlattenPen 10 [MoveTo (Some (10, 10)%float)] (Some (10, 10)%float)
       (Some (10, 10)%float) true true
   /\ true = true
   /\ py_eq (Some (10, 30)%float) (Some (10, 10)%float) = true)
  \/ (exists pts : list PyPt,
        pts <> []
        /\ [MoveTo (Some (10, 10)%float);
            LineTo (Some (10, 20)%float);
            LineTo (Some (10, 30)%float)]
           = [MoveTo (Some (10, 10)%float)] ++ map LineTo pts
        /\ Some (10, 30)%float = Some (10, 30)%float
        /\ Some (10, 10)%float = Some (10, 10)%float).
Proof.
  apply (lineTo_returns_at_target int_round_py2 (Some (10, 30)%float)
           (mkFlattenPen 10 [MoveTo (Some (10, 10)%float)]
              (Some (10, 10)%float) (Some (10, 10)%float) true true)
           (mkFlattenPen 10 [MoveTo (Some (10, 10)%float);
                             LineTo (Some (10, 20)%float);
                             LineTo (Some (10, 30)%float)]
              (Some (10, 30)%float) (Some (10, 10)%float) true true)).
  vm_compute. reflexivity.
Defined.

(** X3.  When [curveTo] returns, it has made one or more calls on the other
    pen, all of them [lineTo], and [currentPt] is the end point it was
    given: a curve is never dropped, and the pen does not stay on a computed
    point. *)
Theorem curveTo_returns_at_end :
  forall (int_round : float -> Res Z)
         (estimateCubicCurveLength : PyPt -> PyPt -> PyPt -> PyPt -> Res float)
         (pt1 pt2 pt3 : PyPt) (self self' : FlattenPen),
    _curveToOne int_round estimateCubicCurveLength pt1 pt2 pt3 self
    = (self', Ok tt) ->
    exists pts : list PyPt,
      pts <> []
      /\ otherPen self' = otherPen self ++ map LineTo pts
      /\ currentPt self' = pt3
      /\ firstPt self' = firstPt self.
Proof.
  intros int_round est pt1 pt2 pt3 self self' H.
  destruct (curveToOne_outcome int_round est pt1 pt2 pt3 self)
    as [[pts [Hne Hd]] | [e' Hd]];
    rewrite Hd in H; inversion H; subst.
  exists pts. repeat split. exact Hne.
Qed.

Lemma curveTo_returns_at_end_witness :
  exists pts : list PyPt,
    pts <> []
    /\ [MoveTo (Some (0, 0)%float);
        LineTo (Some (1.5625, 5.625)%float);
        LineTo (Some (5, 7.5)%float);
        LineTo (Some (8.4375, 5.625)%float);
        LineTo (Some (10, 0)%float)]
       = [MoveTo (Some (0, 0)%float)] ++ map LineTo pts
    /\ Some (10, 0)%float = Some (10, 0)%float
    /\ Some (0, 0)%float = Some (0, 0)%float.
Proof.
  apply (curveTo_returns_at_end int_round_py2
           estimateCubicCurveLength_polygon
           (Some (0, 10)%float) (Some (10, 10)%float) (Some (10, 0)%float)
           (mkFlattenPen 5 [MoveTo (Some (0, 0)%float)] (Some (0, 0)%float)
              (Some (0, 0)%float) false true)
           (mkFlattenPen 5 [MoveTo (Some (0, 0)%float);
                            LineTo (Some (1.5625, 5.625)%float);
                            LineTo (Some (5, 7.5)%float);
                            LineTo (Some (8.4375, 5.625)%float);
                            LineTo (Some (10, 0)%float)]
              (Some (10, 0)%float) (Some (0, 0)%float) false true)).
  vm_compute. reflexivity.
Defined.

(** X4.  A cubic between defined points, once its number of steps n is
    computed: a false curve is drawn as the one line to its end point, and
    any other curve as max(1, n) lines, to the end point itself when n is
    below 1 and otherwise to the points of the curve at the factors
    i * (1.0 / n) for i = 1, ..., n; [currentPt] becomes the end point. *)
Theorem curveTo_cuts_into_steps :
  forall (int_round : float -> Res Z)
         (estimateCubicCurveLength : PyPt -> PyPt -> PyPt -> PyPt -> Res float)
         (self : FlattenPen) (cur c1 c2 endPt : Point)
         (len est : float) (n : Z),
    currentPt self = Some cur ->
    estimateCubicCurveLength (Some cur) (Some c1) (Some c2) (Some endPt)
    = Ok len ->
    py_div len (approximateSegmentLength self) = Ok est ->
    int_round est = Ok n ->
    exists pts : list PyPt,
      _curveToOne int_round estimateCubicCurveLength
        (Some c1) (Some c2) (Some endPt) self
      = (mkFlattenPen (approximateSegmentLength self)
           (otherPen self ++ map LineTo pts) (Some endPt) (firstPt self)
           (segmentLines self) (filterDoubles self), Ok tt)
      /\ List.length pts
         = Z.to_nat (if pt_eqb c1 cur && pt_eqb c2 endPt then 1
                     else Z.max 1 n)
      /\ (if (n <? 1) || (pt_eqb c1 cur && pt_eqb c2 endPt)
          then pts = [Some endPt]
          else map Ok pts
               = map (fun i =>
                        getCubicPoint
                          (float_of_int i * (1 / float_of_int n))%float
                          (Some cur) (Some c1) (Some c2) (Some endPt))
                   (map Z.of_nat (seq 1 (Z.to_nat n)))).
Proof.
  intros int_round est0 self cur c1 c2 endPt len est n Hcur Hlen Hest Hr.
  destruct ((n <? 1) || (pt_eqb c1 cur && pt_eqb c2 endPt)) eqn:Hbranch.
  - exists [Some endPt]. split; [| split; [| reflexivity]].
    + apply (curveToOne_single_line int_round est0 self _ _ _ len est n).
      * rewrite Hcur. exact Hlen.
      * exact Hest.
      * exact Hr.
      * rewrite Hcur. exact Hbranch.
    + destruct (pt_eqb c1 cur && pt_eqb c2 endPt); [reflexivity |].
      rewrite orb_false_r in Hbranch. apply Z.ltb_lt in Hbranch.
      replace (Z.max 1 n) with 1 by lia. reflexivity.
  - apply orb_false_iff in Hbranch as [Hn Hfalse]. rewrite Hfalse.
    set (g := fun i : Z =>
                Some (bezier (float_of_int i * (1 / float_of_int n))
                        (fst cur) (fst c1) (fst c2) (fst endPt),
                      bezier (float_of_int i * (1 / float_of_int n))
                        (snd cur) (snd c1) (snd c2) (snd endPt))).
    assert (Hg : forall i,
               getCubicPoint (float_of_int i * (1 / float_of_int n))%float
                 (Some cur) (Some c1) (Some c2) (Some endPt) = Ok (g i)).
    { intros i. destruct cur, c1, c2, endPt. reflexivity. }
    exists (map g (tl (range 0 (n + 1)))). split; [| split].
    + unfold _curveToOne. rewrite Hcur.
      unfold bind at 1. unfold lift at 1. rewrite Hlen.
      unfold bind at 1. unfold lift at 1. rewrite Hest.
      unfold bind at 1. unfold lift at 1. rewrite Hr.
      cbn [py_eq]. rewrite Hfalse, Hn. change (false || false) with false.
      cbv iota. unfold bind at 1.
      rewrite (for_each_lineTo _ _ g) by exact Hg.
      unfold drew, set_currentPt. simpl. rewrite map_map. reflexivity.
    + rewrite length_map, range_tail_length. apply Z.ltb_ge in Hn.
      f_equal. lia.
    + rewrite range_tail, !map_map. apply map_ext. intros k.
      symmetry. apply Hg.
Qed.

Lemma curveTo_cuts_into_steps_witness :
  exists pts : list PyPt,
    _curveToOne int_round_py2 estimateCubicCurveLength_polygon
      (Some (0, 10)%float) (Some (10, 10)%float) (Some (10, 0)%float)
      (mkFlattenPen 5 [MoveTo (Some (0, 0)%float)] (Some (0, 0)%float)
         (Some (0, 0)%float) false true)
    = (mkFlattenPen 5 ([MoveTo (Some (0, 0)%float)] ++ map LineTo pts)
         (Some (10, 0)%float) (Some (0, 0)%float) false true, Ok tt)
    /\ List.length pts = 4%nat
    /\ map Ok pts
       = map (fun i =>
                getCubicPoint (float_of_int i * (1 / float_of_int 4))%float
                  (Some (0, 0)%float) (Some (0, 10)%float)
                  (Some (10, 10)%float) (Some (10, 0)%float))
           [1; 2; 3; 4].
Proof.
  apply (curveTo_cuts_into_steps int_round_py2
           estimateCubicCurveLength_polygon
           (mkFlattenPen 5 [MoveTo (Some (0, 0)%float)] (Some (0, 0)%float)
              (Some (0, 0)%float) false true)
           (0, 0)%float (0, 10)%float (10, 10)%float (10, 0)%float
           20%float 4%float 4);
    reflexivity.
Defined.

(** ** The structure of the path *)

Lemma filter_structural_lines (pts : list PyPt) :
  filter is_structural (map LineTo pts) = [].
Proof. induction pts as [| p pts IH]; simpl; auto. Qed.

(** One call: when it returns, the other pen has received the call itself
    if it is not a segment, among lines only; when it raises, nothing. *)
Lemma call_structure (int_round : float -> Res Z)
    (est : PyPt -> PyPt -> PyPt -> PyPt -> Res float)
    (c : PenCall) (self : FlattenPen) :
  filter is_structural (otherPen (fst (call int_round est c self)))
  = filter is_structural (otherPen self)
    ++ match snd (call int_round est c self) with
       | Ok _ => filter is_structural [c]
       | Raise _ => []
       end.
Proof.
  destruct c as [pt | pt | pt1 pt2 pt3 | | | g t]; cbn [call].
  - simpl. rewrite filter_app. reflexivity.
  - unfold lineTo.
    destruct (lineTo_outcome int_round pt self)
      as [[Hd _] | [[pts [_ Hd]] | [e' Hd]]];
      rewrite Hd; simpl;
      rewrite ?filter_app, ?filter_structural_lines, ?app_nil_r;
      reflexivity.
  - destruct (curveToOne_outcome int_round est pt1 pt2 pt3 self)
      as [[pts [_ Hd]] | [e' Hd]];
      rewrite Hd; simpl;
      rewrite ?filter_app, ?filter_structural_lines, ?app_nil_r;
      reflexivity.
  - destruct (lineTo_outcome int_round (firstPt self) self)
      as [[Hd _] | [[pts [_ Hd]] | [e' Hd]]].
    + rewrite (closePath_after_lineTo _ _ _ Hd). simpl.
      rewrite filter_app. reflexivity.
    + rewrite (closePath_after_lineTo _ _ _ Hd). simpl.
      rewrite !filter_app, filter_structural_lines, app_nil_r. reflexivity.
    + rewrite (closePath_lineTo_raises _ _ _ _ Hd). simpl.
      rewrite app_nil_r. reflexivity.
  - simpl. rewrite filter_app. reflexivity.
  - simpl. rewrite filter_app. reflexivity.
Qed.

(** Drawing two lists one after the other. *)
Lemma draw_app (int_round : float -> Res Z)
    (est : PyPt -> PyPt -> PyPt -> PyPt -> Res float)
    (calls1 calls2 : list PenCall) (self : FlattenPen) :
  draw int_round est (calls1 ++ calls2) self
  = match draw int_round est calls1 self with
    | (self1, Ok _) => draw int_round est calls2 self1
    | (self1, Raise e) => (self1, Raise e)
    end.
Proof.
  revert self. induction calls1 as [| c rest IH]; intros self.
  - reflexivity.
  - simpl app. rewrite !draw_cons.
    destruct (call int_round est c self) as [self1 [[] | e]].
    + apply IH.
    + reflexivity.
Qed.

(** A draw that returns has made the structural calls of the whole list. *)
Lemma draw_returns_structure (int_round : float -> Res Z)
    (est : PyPt -> PyPt -> PyPt -> PyPt -> Res float)
    (calls : list PenCall) :
  forall self self' : FlattenPen,
    draw int_round est calls self = (self', Ok tt) ->
    filter is_structural (otherPen self')
    = filter is_structural (otherPen self) ++ filter is_structural calls.
Proof.
  induction calls as [| c rest IH]; intros self self' H.
  - inversion H; subst. simpl. rewrite app_nil_r. reflexivity.
  - rewrite draw_cons in H.
    pose proof (call_structure int_round est c self) as Hc.
    destruct (call int_round est c self) as [self1 [[] | e]]; simpl in Hc.
    + rewrite (IH self1 self' H), Hc. cbn [filter]. rewrite <- app_assoc.
      f_equal. destruct (is_structural c); reflexivity.
    + discriminate H.
Qed.

(** A draw that raises stopped at a call that raised, after a part of the
    list that returned. *)
Lemma draw_raises_at (int_round : float -> Res Z)
    (est : PyPt -> PyPt -> PyPt -> PyPt -> Res float)
    (calls : list PenCall) :
  forall (self : FlattenPen) (e : PyExc),
    snd (draw int_round est calls self) = Raise e ->
    exists (calls1 : list PenCall) (c : PenCall) (calls2 : list PenCall),
      calls = calls1 ++ c :: calls2
      /\ snd (draw int_round est calls1 self) = Ok tt
      /\ snd (call int_round est c (fst (draw int_round est calls1 self)))
         = Raise e.
Proof.
  induction calls as [| c rest IH]; intros self e H.
  - discriminate H.
  - rewrite draw_cons in H.
    destruct (call int_round est c self) as [self1 [[] | e1]] eqn:Hc.
    + destruct (IH self1 e H) as [calls1 [c' [calls2 [Heq [Hok Hraise]]]]].
      exists (c :: calls1), c', calls2. rewrite Heq.
      split; [reflexivity |]. rewrite draw_cons, Hc. split; assumption.
    + exists [], c, rest. simpl in H. inversion H; subst.
      split; [reflexivity |]. split; [reflexivity |].
      simpl. rewrite Hc. reflexivity.
Qed.

(** X5.  The filter keeps the structure of what it is given.  When the
    drawing returns, leaving the segments aside, the other pen has received
    the [moveTo], [closePath], [endPath] and [addComponent] calls of the
    producer, unchanged and in their order, and nothing else.  When a call
    raises after a part of the list that returned, the drawing stops there
    with that exception, and the other pen has received the structural
    calls of that part only: none of the raising call, none of the calls
    after it.  A drawing that raises is always in that case. *)
Theorem structure_is_kept :
  forall (int_round : float -> Res Z)
         (estimateCubicCurveLength : PyPt -> PyPt -> PyPt -> PyPt -> Res float)
         (calls : list PenCall) (self : FlattenPen),
    (snd (draw int_round estimateCubicCurveLength calls self) = Ok tt ->
     filter is_structural
       (otherPen (fst (draw int_round estimateCubicCurveLength calls self)))
     = filter is_structural (otherPen self) ++ filter is_structural calls)
    /\ (forall (calls1 : list PenCall) (c : PenCall) (calls2 : list PenCall)
               (self1 self2 : FlattenPen) (e : PyExc),
          calls = calls1 ++ c :: calls2 ->
          draw int_round estimateCubicCurveLength calls1 self
          = (self1, Ok tt) ->
          call int_round estimateCubicCurveLength c self1
          = (self2, Raise e) ->
          draw int_round estimateCubicCurveLength calls self
          = (self2, Raise e)
          /\ otherPen self2 = otherPen self1
          /\ filter is_structural (otherPen self2)
             = filter is_structural (otherPen self)
               ++ filter is_structural calls1)
    /\ (forall e : PyExc,
          snd (draw int_round estimateCubicCurveLength calls self) = Raise e ->
          exists (calls1 : list PenCall) (c : PenCall)
                 (calls2 : list PenCall),
            calls = calls1 ++ c :: calls2
            /\ snd (draw int_round estimateCubicCurveLength calls1 self)
               = Ok tt
            /\ snd (call int_round estimateCubicCurveLength c
                      (fst (draw int_round estimateCubicCurveLength calls1
                              self)))
               = Raise e).
Proof.
  intros int_round est calls self. split; [| split].
  - intros Hok.
    apply (draw_returns_structure int_round est calls self).
    destruct (draw int_round est calls self) as [self' r].
    simpl in Hok. subst r. reflexivity.
  - intros calls1 c calls2 self1 self2 e Heq H1 Hc. subst calls.
    rewrite draw_app, H1, draw_cons, Hc.
    split; [reflexivity |].
    assert (Hsame : self2 = self1).
    { destruct c as [pt | pt | pt1 pt2 pt3 | | | g t]; cbn [call] in Hc;
        try discriminate Hc.
      - unfold lineTo in Hc.
        destruct (lineTo_outcome int_round pt self1)
          as [[Hd _] | [[pts [_ Hd]] | [e' Hd]]];
          rewrite Hd in Hc; inversion Hc; reflexivity.
      - destruct (curveToOne_outcome int_round est pt1 pt2 pt3 self1)
          as [[pts [_ Hd]] | [e' Hd]];
          rewrite Hd in Hc; inversion Hc; reflexivity.
      - destruct (lineTo_outcome int_round (firstPt self1) self1)
          as [[Hd _] | [[pts [_ Hd]] | [e' Hd]]].
        + rewrite (closePath_after_lineTo _ _ _ Hd) in Hc. discriminate Hc.
        + rewrite (closePath_after_lineTo _ _ _ Hd) in Hc. discriminate Hc.
        + rewrite (closePath_lineTo_raises _ _ _ _ Hd) in Hc.
          inversion Hc. reflexivity. }
    subst self2. split; [reflexivity |].
    apply (draw_returns_structure int_round est calls1 self self1 H1).
  - intros e. apply draw_raises_at.
Qed.

Lemma structure_is_kept_witness :
  draw int_round_py2 estimateCubicCurveLength_polygon
    ([MoveTo (Some (0, 0)%float)]
     ++ LineTo (Some (0x1p700, 0)%float)
        :: [EndPath; MoveTo (Some (10, 10)%float); EndPath])
    (__init__ 10 true true)
  = (mkFlattenPen 10 [MoveTo (Some (0, 0)%float)] (Some (0, 0)%float)
       (Some (0, 0)%float) true true, Raise OverflowError)
  /\ otherPen (mkFlattenPen 10 [MoveTo (Some (0, 0)%float)]
                 (Some (0, 0)%float) (Some (0, 0)%float) true true)
     = otherPen (mkFlattenPen 10 [MoveTo (Some (0, 0)%float)]
                   (Some (0, 0)%float) (Some (0, 0)%float) true true)
  /\ filter is_structural
       (otherPen (mkFlattenPen 10 [MoveTo (Some (0, 0)%float)]
                    (Some (0, 0)%float) (Some (0, 0)%float) true true))
     = filter is_structural (otherPen (__init__ 10 true true))
       ++ filter is_structural [MoveTo (Some (0, 0)%float)].
Proof.
  apply (proj1 (proj2 (structure_is_kept int_round_py2
                         estimateCubicCurveLength_polygon
                         ([MoveTo (Some (0, 0)%float)]
                          ++ LineTo (Some (0x1p700, 0)%float)
                             :: [EndPath; MoveTo (Some (10, 10)%float);
                                 EndPath])
                         (__init__ 10 true true)))
           [MoveTo (Some (0, 0)%float)]
           (LineTo (Some (0x1p700, 0)%float))
           [EndPath; MoveTo (Some (10, 10)%float); EndPath]
           (mkFlattenPen 10 [MoveTo (Some (0, 0)%float)] (Some (0, 0)%float)
              (Some (0, 0)%float) true true)
           (mkFlattenPen 10 [MoveTo (Some (0, 0)%float)] (Some (0, 0)%float)
              (Some (0, 0)%float) true true)
           OverflowError).
  - reflexivity.
  - reflexivity.
  - vm_compute. reflexivity.
Defined.

(** ** What no call changes *)

(** A property that no call on the other pen and no change of [currentPt]
    can break is kept by every call but [moveTo], and by [moveTo] as well
    when no change of [firstPt] can break it. *)
Section Call_preserved.

Variable int_round : float -> Res Z.
Variable estimateCubicCurveLength : PyPt -> PyPt -> PyPt -> PyPt -> Res float.
Variable P : FlattenPen -> Prop.
Hypothesis P_call : forall c, preserves P (call_otherPen c).
Hypothesis P_currentPt : forall pt, preserves P (set_currentPt pt).

Lemma call_preserves_unless_moveTo (c : PenCall) :
  is_MoveTo c = false ->
  preserves P (call int_round estimateCubicCurveLength c).
Proof.
  intros Hc. destruct c as [pt | pt | pt1 pt2 pt3 | | | g t];
    try discriminate Hc; cbn [call].
  - apply lineTo_preserves; auto.
  - apply curveToOne_preserves; auto.
  - intros self. unfold _closePath.
    generalize (firstPt self). intros first. revert self.
    apply preserves_bind; [apply lineTo_preserves; auto | intro].
    apply preserves_bind; [apply P_call | intro; apply P_currentPt].
  - unfold _endPath.
    apply preserves_bind; [apply P_call | intro; apply P_currentPt].
  - apply P_call.
Qed.

Hypothesis P_firstPt : forall pt, preserves P (set_firstPt pt).

Lemma call_preserves (c : PenCall) :
  preserves P (call int_round estimateCubicCurveLength c).
Proof.
  destruct (is_MoveTo c) eqn:Hc.
  - destruct c; try discriminate Hc. cbn [call]. unfold _moveTo.
    apply preserves_bind; [apply P_call | intro].
    apply preserves_bind; [apply P_currentPt | intro; apply P_firstPt].
  - apply call_preserves_unless_moveTo. exact Hc.
Qed.

End Call_preserved.

Lemma call_keeps_configuration (int_round : float -> Res Z)
    (est : PyPt -> PyPt -> PyPt -> PyPt -> Res float)
    (len : float) (sl fd : bool) (c : PenCall) :
  preserves (fun self => approximateSegmentLength self = len
                         /\ segmentLines self = sl
                         /\ filterDoubles self = fd)
    (call int_round est c).
Proof. apply call_preserves; intros x self H; exact H. Qed.

(** X6.  Drawing never changes the configuration of the pen (segment
    length, [segmentLines], [filterDoubles]), and [firstPt] is changed by
    [moveTo] only: calls without a [moveTo] leave it as it was, also when
    one of them raises. *)
Theorem configuration_and_firstPt_are_kept :
  forall (int_round : float -> Res Z)
         (estimateCubicCurveLength : PyPt -> PyPt -> PyPt -> PyPt -> Res float)
         (calls : list PenCall) (self : FlattenPen),
    (approximateSegmentLength
       (fst (draw int_round estimateCubicCurveLength calls self))
     = approximateSegmentLength self
     /\ segmentLines (fst (draw int_round estimateCubicCurveLength calls self))
        = segmentLines self
     /\ filterDoubles (fst (draw int_round estimateCubicCurveLength calls self))
        = filterDoubles self)
    /\ (forallb (fun c => negb (is_MoveTo c)) calls = true ->
        firstPt (fst (draw int_round estimateCubicCurveLength calls self))
        = firstPt self).
Proof.
  intros int_round est calls self. split.
  - apply (preserves_for_each
             (fun s => approximateSegmentLength s
                       = approximateSegmentLength self
                       /\ segmentLines s = segmentLines self
                       /\ filterDoubles s = filterDoubles self)).
    + intros c. apply call_keeps_configuration.
    + repeat split.
  - revert self. induction calls as [| c rest IH]; intros self Hcalls.
    + reflexivity.
    + simpl in Hcalls. apply andb_true_iff in Hcalls as [Hc Hrest].
      apply negb_true_iff in Hc. rewrite draw_cons.
      pose proof (call_preserves_unless_moveTo int_round est
                    (fun s => firstPt s = firstPt self)
                    (fun c self H => H) (fun pt self H => H) c Hc self
                    eq_refl) as Hfirst.
      destruct (call int_round est c self) as [self1 [[] | e]];
        simpl in Hfirst.
      * rewrite (IH self1 Hrest). exact Hfirst.
      * exact Hfirst.
Qed.

Lemma configuration_and_firstPt_are_kept_witness :
  firstPt (fst (draw int_round_py2 estimateCubicCurveLength_polygon
                  [LineTo (Some (10, 30)%float);
                   CurveTo (Some (10, 40)%float) (Some (20, 40)%float)
                     (Some (30, 30)%float);
                   ClosePath;
                   LineTo (Some (30, 10)%float)]
                  (mkFlattenPen 10 [MoveTo (Some (10, 10)%float)]
                     (Some (10, 10)%float) (Some (10, 10)%float) true true)))
  = Some (10, 10)%float.
Proof.
  apply (configuration_and_firstPt_are_kept int_round_py2
           estimateCubicCurveLength_polygon
           [LineTo (Some (10, 30)%float);
            CurveTo (Some (10, 40)%float) (Some (20, 40)%float)
              (Some (30, 30)%float);
            ClosePath;
            LineTo (Some (30, 10)%float)]
           (mkFlattenPen 10 [MoveTo (Some (10, 10)%float)]
              (Some (10, 10)%float) (Some (10, 10)%float) true true)).
  reflexivity.
Defined.

(** ** Paths without curves, lines not cut *)

Lemma call_uncut_returns (int_round : float -> Res Z)
    (est : PyPt -> PyPt -> PyPt -> PyPt -> Res float)
    (c : PenCall) (self : FlattenPen) :
  segmentLines self = false ->
  is_CurveTo c = false ->
  snd (call int_round est c self) = Ok tt.
Proof.
  intros Hsl Hc. destruct c as [pt | pt | pt1 pt2 pt3 | | | g t];
    try discriminate Hc; cbn [call]; try reflexivity.
  - unfold lineTo.
    destruct (filterDoubles self && py_eq pt (currentPt self)) eqn:Hdrop.
    + apply andb_true_iff in Hdrop as [Hfd Heq].
      rewrite (lineTo_dropped int_round pt self Hfd Heq). reflexivity.
    + rewrite (lineTo_forwarded int_round pt self Hdrop Hsl). reflexivity.
  - rewrite (closePath_uncut int_round self Hsl). reflexivity.
Qed.

(** X7.  With [segmentLines] off, only [curveTo] can raise: drawing calls
    among which there is no [curveTo] returns, whatever the state of the pen
    (also before any [moveTo]) and whatever the points. *)
Theorem uncut_pen_fails_on_curves_only :
  forall (int_round : float -> Res Z)
         (estimateCubicCurveLength : PyPt -> PyPt -> PyPt -> PyPt -> Res float)
         (calls : list PenCall) (self : FlattenPen),
    segmentLines self = false ->
    forallb (fun c => negb (is_CurveTo c)) calls = true ->
    snd (draw int_round estimateCubicCurveLength calls self) = Ok tt.
Proof.
  intros int_round est calls.
  induction calls as [| c rest IH]; intros self Hsl Hcalls.
  - reflexivity.
  - simpl in Hcalls. apply andb_true_iff in Hcalls as [Hc Hrest].
    apply negb_true_iff in Hc. rewrite draw_cons.
    pose proof (call_uncut_returns int_round est c self Hsl Hc) as Hok.
    pose proof (call_keeps_configuration int_round est
                  (approximateSegmentLength self) false (filterDoubles self)
                  c self (conj eq_refl (conj Hsl eq_refl)))
      as [_ [Hsl1 _]].
    destruct (call int_round est c self) as [self1 [[] | e]];
      simpl in Hok, Hsl1.
    + apply IH; assumption.
    + discriminate Hok.
Qed.

Lemma uncut_pen_fails_on_curves_only_witness :
  snd (draw int_round_py2 estimateCubicCurveLength_polygon
         [ClosePath;
          LineTo (Some (0x1p700, 0)%float);
          AddComponent "a" (1, 0, 0, 1, 0, 0)%float;
          MoveTo None;
          LineTo (Some (0, 0)%float);
          EndPath]
         (__init__ 0 false false)) = Ok tt.
Proof.
  apply (uncut_pen_fails_on_curves_only int_round_py2
           estimateCubicCurveLength_polygon
           [ClosePath;
            LineTo (Some (0x1p700, 0)%float);
            AddComponent "a" (1, 0, 0, 1, 0, 0)%float;
            MoveTo None;
            LineTo (Some (0, 0)%float);
            EndPath]
           (__init__ 0 false false));
    reflexivity.
Defined.

(** ** Flattening twice *)

Lemma withClosingEdges_line_only (first : PyPt) (calls : list PenCall) :
  forallb is_line_call calls = true ->
  forallb is_line_call (withClosingEdges first calls) = true.
Proof.
  revert first. induction calls as [| c rest IH]; intros first H.
  - reflexivity.
  - simpl in H. apply andb_true_iff in H as [Hc Hrest].
    destruct c; try discriminate Hc; simpl; auto.
Qed.

Lemma withoutDoubles_line_only (cur : PyPt) (calls : list PenCall) :
  forallb is_line_call calls = true ->
  forallb is_line_call (withoutDoubles cur calls) = true.
Proof.
  revert cur. induction calls as [| c rest IH]; intros cur H.
  - reflexivity.
  - simpl in H. apply andb_true_iff in H as [Hc Hrest].
    destruct c; try discriminate Hc; simpl; auto.
    destruct (py_eq pt cur); simpl; auto.
Qed.

(** Writing out the closing edges and leaving out the doubles, done twice,
    gives what it gives once. *)
Lemma closing_edges_without_doubles_twice (calls : list PenCall) :
  forall cur first : PyPt,
    forallb is_line_call calls = true ->
    starts_self_equal calls = true ->
    py_eq first first = true ->
    withoutDoubles cur
      (withClosingEdges first
         (withoutDoubles cur (withClosingEdges first calls)))
    = withoutDoubles cur (withClosingEdges first calls).
Proof.
  induction calls as [| c rest IH]; intros cur first Hline Hself Hfirst.
  - reflexivity.
  - simpl in Hline. apply andb_true_iff in Hline as [Hc Hline].
    unfold starts_self_equal in Hself. simpl in Hself.
    apply andb_true_iff in Hself as [Hpt Hself].
    destruct c as [pt | pt | pt1 pt2 pt3 | | | g t]; try discriminate Hc.
    + simpl. rewrite IH; auto.
    + simpl. destruct (py_eq pt cur) eqn:Heq.
      * apply IH; auto.
      * simpl. rewrite Heq. rewrite IH; auto.
    + simpl. destruct (py_eq first cur) eqn:Heq.
      * simpl. rewrite Heq. rewrite IH; auto.
      * simpl. rewrite Heq, Hfirst. rewrite IH; auto.
    + simpl. rewrite IH; auto.
Qed.

(** X8.  Flattening what was flattened changes nothing, for paths of
    straight lines with [segmentLines] off and [filterDoubles] on: when the
    calls that the other pen received are drawn into a second such pen, they
    come out as they are, closing edges included.  (The points of the
    [moveTo]s must be equal to themselves, that is, hold no nan.) *)
Theorem uncut_flattening_is_idempotent :
  forall (int_round int_round' : float -> Res Z)
         (estimateCubicCurveLength estimateCubicCurveLength'
            : PyPt -> PyPt -> PyPt -> PyPt -> Res float)
         (len len' : float) (calls : list PenCall),
    forallb is_line_call calls = true ->
    starts_self_equal calls = true ->
    snd (draw int_round' estimateCubicCurveLength'
           (otherPen (fst (draw int_round estimateCubicCurveLength calls
                             (__init__ len false true))))
           (__init__ len' false true)) = Ok tt
    /\ otherPen
         (fst (draw int_round' estimateCubicCurveLength'
                 (otherPen (fst (draw int_round estimateCubicCurveLength calls
                                   (__init__ len false true))))
                 (__init__ len' false true)))
       = otherPen (fst (draw int_round estimateCubicCurveLength calls
                          (__init__ len false true))).
Proof.
  intros ir ir' est est' len len' calls Hline Hself.
  destruct (draw_uncut_lines ir est calls (__init__ len false true)
              Hline eq_refl) as [_ Hout1].
  simpl in Hout1.
  assert (Hline1 : forallb is_line_call
                     (otherPen (fst (draw ir est calls
                                       (__init__ len false true)))) = true).
  { rewrite Hout1. apply withoutDoubles_line_only.
    apply withClosingEdges_line_only. exact Hline. }
  destruct (draw_uncut_lines ir' est' _ (__init__ len' false true)
              Hline1 eq_refl) as [Hok2 Hout2].
  simpl in Hout2.
  rewrite Hout1 in Hout2 at 2.
  rewrite closing_edges_without_doubles_twice in Hout2 by auto.
  rewrite <- Hout1 in Hout2.
  split; assumption.
Qed.

Lemma uncut_flattening_is_idempotent_witness :
  otherPen (fst (draw int_round_py3 estimateCubicCurveLength_polygon
                   (otherPen (fst (draw int_round_py2
                                     estimateCubicCurveLength_polygon
                                     testGlyph_calls
                                     (__init__ 10 false true))))
                   (__init__ 5 false true)))
  = [MoveTo (Some (10, 10)%float);
     LineTo (Some (10, 30)%float);
     LineTo (Some (30, 30)%float);
     LineTo (Some (30, 10)%float);
     LineTo (Some (10, 10)%float);
     ClosePath].
Proof.
  rewrite (proj2 (uncut_flattening_is_idempotent int_round_py2 int_round_py3
                    estimateCubicCurveLength_polygon
                    estimateCubicCurveLength_polygon 10 5 testGlyph_calls
                    eq_refl eq_refl)).
  reflexivity.
Defined.

(** ** What [flattenGlyph] puts back into the glyph *)

(** X9.  When [flattenGlyph] returns for a glyph with contours, what it
    replayed into the cleared glyph is a recording of calls among which
    there is no [curveTo], whatever curves the glyph had. *)
Theorem flattenGlyph_redraws_without_curves :
  forall (int_round : float -> Res Z)
         (estimateCubicCurveLength : PyPt -> PyPt -> PyPt -> PyPt -> Res float)
         (Glyph : Type) (glyph_len : Glyph -> nat)
         (glyph_draw : Glyph -> list PenCall) (glyph_clear : Glyph -> Glyph)
         (Data : Type) (DataPointPen : Data)
         (SegmentToPointPen : list PenCall -> Data -> Data)
         (data_draw : Data -> Glyph -> Glyph)
         (aGlyph : Glyph) (threshold : float) (segmentLines : bool),
    glyph_len aGlyph <> 0%nat ->
    snd (flattenGlyph int_round estimateCubicCurveLength Glyph glyph_len
           glyph_draw glyph_clear Data DataPointPen SegmentToPointPen
           data_draw aGlyph threshold segmentLines) = Ok tt ->
    exists recorded : list PenCall,
      forallb (fun c => negb (is_CurveTo c)) recorded = true
      /\ fst (flattenGlyph int_round estimateCubicCurveLength Glyph glyph_len
                glyph_draw glyph_clear Data DataPointPen SegmentToPointPen
                data_draw aGlyph threshold segmentLines)
         = data_draw (SegmentToPointPen recorded DataPointPen)
             (glyph_clear aGlyph).
Proof.
  intros ir est Glyph glyph_len glyph_draw glyph_clear Data DataPointPen
         SegmentToPointPen data_draw aGlyph threshold sl Hlen Hok.
  unfold flattenGlyph in *.
  destruct (Nat.eqb_spec (glyph_len aGlyph) 0) as [H0 | _];
    [contradiction |].
  pose proof (curve_free_draw ir est (glyph_draw aGlyph)
                (__init__ threshold sl true) eq_refl) as Hfree.
  destruct (draw ir est (glyph_draw aGlyph) (__init__ threshold sl true))
    as [filterpen [[] | e]]; simpl in *.
  - exists (otherPen filterpen). split; [exact Hfree | reflexivity].
  - discriminate Hok.
Qed.

Lemma flattenGlyph_redraws_without_curves_witness :
  exists recorded : list PenCall,
    forallb (fun c => negb (is_CurveTo c)) recorded = true
    /\ fst (callsGlyph_flatten
              [MoveTo (Some (0, 0)%float);
               CurveTo (Some (0, 10)%float) (Some (10, 10)%float)
                 (Some (10, 0)%float);
               ClosePath] 5 true)
       = [] ++ recorded.
Proof.
  apply (flattenGlyph_redraws_without_curves int_round_py2
           estimateCubicCurveLength_polygon (list PenCall) callsGlyph_len
           (fun g => g) (fun _ => []) (list PenCall) []
           (fun calls data => data ++ calls) (fun data g => g ++ data)
           [MoveTo (Some (0, 0)%float);
            CurveTo (Some (0, 10)%float) (Some (10, 10)%float)
              (Some (10, 0)%float);
            ClosePath] 5%float true).
  - vm_compute. discriminate.
  - vm_compute. reflexivity.
Defined.

(** ** One contour after the other *)

Lemma relog_fields (before : list PenCall) (self : FlattenPen) :
  approximateSegmentLength (relog before self) = approximateSegmentLength self
  /\ currentPt (relog before self) = currentPt self
  /\ firstPt (relog before self) = firstPt self
  /\ segmentLines (relog before self) = segmentLines self
  /\ filterDoubles (relog before self) = filterDoubles self.
Proof. repeat split. Qed.

Lemma log_blind_ret {A : Type} (a : A) : log_blind (ret a).
Proof. intros before self. reflexivity. Qed.

Lemma log_blind_lift {A : Type} (r : Res A) : log_blind (lift r).
Proof. intros before self. reflexivity. Qed.

Lemma log_blind_call_otherPen (c : PenCall) : log_blind (call_otherPen c).
Proof.
  intros before self. unfold call_otherPen, relog. simpl.
  rewrite app_assoc. reflexivity.
Qed.

Lemma log_blind_set_currentPt (pt : PyPt) : log_blind (set_currentPt pt).
Proof. intros before self. reflexivity. Qed.

Lemma log_blind_set_firstPt (pt : PyPt) : log_blind (set_firstPt pt).
Proof. intros before self. reflexivity. Qed.

Lemma log_blind_bind {A B : Type} (m : Meth A) (k : A -> Meth B) :
  log_blind m -> (forall a, log_blind (k a)) -> log_blind (bind m k).
Proof.
  intros Hm Hk before self. unfold bind. rewrite Hm.
  destruct (m self) as [self1 [a | e]]; simpl.
  - rewrite Hk. reflexivity.
  - reflexivity.
Qed.

Lemma log_blind_for_each {A : Type} (l : list A) (body : A -> Meth unit) :
  (forall x, log_blind (body x)) -> log_blind (for_each l body).
Proof.
  intros Hbody. induction l as [| x l IH]; simpl.
  - apply log_blind_ret.
  - apply log_blind_bind; [apply Hbody | intros _; exact IH].
Qed.

#[local] Hint Resolve log_blind_ret log_blind_lift log_blind_call_otherPen
  log_blind_set_currentPt log_blind_set_firstPt : pen.

Ltac step_log_blind :=
  repeat first
    [ apply log_blind_bind; [| intro]
    | apply log_blind_for_each; intro
    | solve [auto with pen] ].

Lemma log_blind_lineTo (int_round : float -> Res Z) (pt : PyPt) :
  log_blind (_lineTo int_round pt).
Proof.
  intros before self. unfold _lineTo.
  cbn [relog filterDoubles currentPt segmentLines approximateSegmentLength].
  destruct (filterDoubles self && py_eq pt (currentPt self)).
  - reflexivity.
  - destruct (negb (segmentLines self)).
    + revert before self. step_log_blind.
    + generalize (currentPt self) (approximateSegmentLength self).
      intros cur len. revert before self.
      change (log_blind
                (d <- lift (distance cur pt) ;;
                 q <- lift (py_div d len) ;;
                 maxSteps <- lift (int_round q) ;;
                 if maxSteps <? 1 then
                   call_otherPen (LineTo pt) ;; set_currentPt pt
                 else
                   for_each (tl (range 0 (maxSteps + 1))) (fun i =>
                     p <- lift (interpolatePoint cur pt
                                  (float_of_int i
                                   * (1 / float_of_int maxSteps))%float) ;;
                     call_otherPen (LineTo p)) ;;
                   set_currentPt pt)).
      step_log_blind. destruct (_ <? 1); step_log_blind.
Qed.

Lemma log_blind_curveToOne (int_round : float -> Res Z)
    (est : PyPt -> PyPt -> PyPt -> PyPt -> Res float) (pt1 pt2 pt3 : PyPt) :
  log_blind (_curveToOne int_round est pt1 pt2 pt3).
Proof.
  intros before self. unfold _curveToOne.
  cbn [relog currentPt approximateSegmentLength].
  generalize (currentPt self) (approximateSegmentLength self).
  intros cur len. revert before self.
  change (log_blind
            (l <- lift (est cur pt1 pt2 pt3) ;;
             q <- lift (py_div l len) ;;
             maxSteps <- lift (int_round q) ;;
             if (maxSteps <? 1) || (py_eq pt1 cur && py_eq pt2 pt3) then
               call_otherPen (LineTo pt3) ;; set_currentPt pt3
             else
               for_each (tl (range 0 (maxSteps + 1))) (fun i =>
                 pt <- lift (getCubicPoint
                               (float_of_int i
                                * (1 / float_of_int maxSteps))%float
                               cur pt1 pt2 pt3) ;;
                 call_otherPen (LineTo pt)) ;;
               set_currentPt pt3)).
  step_log_blind. destruct (_ || _); step_log_blind.
Qed.

Lemma log_blind_call (int_round : float -> Res Z)
    (est : PyPt -> PyPt -> PyPt -> PyPt -> Res float) (c : PenCall) :
  log_blind (call int_round est c).
Proof.
  destruct c as [pt | pt | pt1 pt2 pt3 | | | g t]; cbn [call].
  - unfold _moveTo. step_log_blind.
  - apply log_blind_lineTo.
  - apply log_blind_curveToOne.
  - intros before self. unfold _closePath. cbn [relog firstPt].
    generalize (firstPt self). intros first. revert before self.
    change (log_blind
              (lineTo int_round first ;;
               call_otherPen ClosePath ;; set_currentPt None)).
    apply log_blind_bind; [apply log_blind_lineTo | intro].
    step_log_blind.
  - unfold _endPath. step_log_blind.
  - apply log_blind_call_otherPen.
Qed.

Lemma log_blind_draw (int_round : float -> Res Z)
    (est : PyPt -> PyPt -> PyPt -> PyPt -> Res float) (calls : list PenCall) :
  log_blind (draw int_round est calls).
Proof. apply log_blind_for_each. apply log_blind_call. Qed.

(** X10.  Contours are flattened independently: once the calls drawn so far
    have returned, what the pen does from a [moveTo] on is what a new pen
    with the same configuration does from that [moveTo] on.  The other pen
    receives the calls of the first part followed by the calls that the
    second part alone gives, and the outcome and the two points of the pen
    are those of the second part alone. *)
Theorem contours_are_flattened_independently :
  forall (int_round : float -> Res Z)
         (estimateCubicCurveLength : PyPt -> PyPt -> PyPt -> PyPt -> Res float)
         (len : float) (sl fd : bool) (calls1 rest : list PenCall)
         (pt : PyPt) (self1 : FlattenPen),
    draw int_round estimateCubicCurveLength calls1 (__init__ len sl fd)
    = (self1, Ok tt) ->
    draw int_round estimateCubicCurveLength (calls1 ++ MoveTo pt :: rest)
      (__init__ len sl fd)
    = (mkFlattenPen len
         (otherPen self1
          ++ otherPen (fst (draw int_round estimateCubicCurveLength
                              (MoveTo pt :: rest) (__init__ len sl fd))))
         (currentPt (fst (draw int_round estimateCubicCurveLength
                            (MoveTo pt :: rest) (__init__ len sl fd))))
         (firstPt (fst (draw int_round estimateCubicCurveLength
                          (MoveTo pt :: rest) (__init__ len sl fd))))
         sl fd,
       snd (draw int_round estimateCubicCurveLength (MoveTo pt :: rest)
              (__init__ len sl fd))).
Proof.
  intros ir est len sl fd calls1 rest pt self1 H1.
  rewrite draw_app, H1.
  pose proof (preserves_for_each
                (fun s => approximateSegmentLength s = len
                          /\ segmentLines s = sl /\ filterDoubles s = fd)
                calls1 _ (call_keeps_configuration ir est len sl fd)
                (__init__ len sl fd) (conj eq_refl (conj eq_refl eq_refl)))
    as Hconf.
  fold (draw ir est calls1) in Hconf. rewrite H1 in Hconf.
  destruct Hconf as [Hlen [Hsl Hfd]]. simpl in Hlen, Hsl, Hfd.
  rewrite !draw_cons. cbn [call].
  change (_moveTo pt self1)
    with (mkFlattenPen (approximateSegmentLength self1)
            (otherPen self1 ++ [MoveTo pt]) pt pt (segmentLines self1)
            (filterDoubles self1), Ok tt).
  change (_moveTo pt (__init__ len sl fd))
    with (mkFlattenPen len [MoveTo pt] pt pt sl fd, Ok tt).
  cbv iota. rewrite Hlen, Hsl, Hfd.
  change (mkFlattenPen len (otherPen self1 ++ [MoveTo pt]) pt pt sl fd)
    with (relog (otherPen self1) (mkFlattenPen len [MoveTo pt] pt pt sl fd)).
  rewrite (log_blind_draw ir est rest).
  pose proof (preserves_for_each
                (fun s => approximateSegmentLength s = len
                          /\ segmentLines s = sl /\ filterDoubles s = fd)
                rest _ (call_keeps_configuration ir est len sl fd)
                (mkFlattenPen len [MoveTo pt] pt pt sl fd)
                (conj eq_refl (conj eq_refl eq_refl)))
    as Hconf2.
  fold (draw ir est rest) in Hconf2.
  destruct (draw ir est rest (mkFlattenPen len [MoveTo pt] pt pt sl fd))
    as [[l2 o2 c2 f2 s2 d2] r2].
  simpl in *. destruct Hconf2 as [? [? ?]]. subst. reflexivity.
Qed.

Lemma contours_are_flattened_independently_witness :
  otherPen (fst (draw int_round_py2 estimateCubicCurveLength_polygon
                   (testGlyph_calls
                    ++ MoveTo (Some (0, 0)%float)
                       :: [LineTo (Some (0, 20)%float); EndPath])
                   (__init__ 10 true true)))
  = otherPen (fst (draw int_round_py2 estimateCubicCurveLength_polygon
                     testGlyph_calls (__init__ 10 true true)))
    ++ [MoveTo (Some (0, 0)%float);
        LineTo (Some (0, 10)%float);
        LineTo (Some (0, 20)%float);
        EndPath].
Proof.
  rewrite (contours_are_flattened_independently int_round_py2
             estimateCubicCurveLength_polygon 10 true true testGlyph_calls
             [LineTo (Some (0, 20)%float); EndPath] (Some (0, 0)%float)
             (fst (draw int_round_py2 estimateCubicCurveLength_polygon
                     testGlyph_calls (__init__ 10 true true)))).
  - vm_compute. reflexivity.
  - vm_compute. reflexivity.
Defined.

(** ** Well-formed paths *)

Lemma path_state_app (inside : bool) (calls1 calls2 : list PenCall) :
  path_state inside (calls1 ++ calls2)
  = match path_state inside calls1 with
    | Some inside1 => path_state inside1 calls2
    | None => None
    end.
Proof.
  revert inside. induction calls1 as [| c rest IH]; intros inside.
  - reflexivity.
  - destruct c, inside; simpl; auto.
Qed.

Lemma path_state_lines (pts : list PyPt) :
  path_state true (map LineTo pts) = Some true.
Proof. induction pts as [| p pts IH]; simpl; auto. Qed.

(** One call that is in its place leaves the calls on the other pen well
    formed, with a contour open or not as the call leaves it when it
    returns, and as it was when it raises. *)
Lemma call_path_state (int_round : float -> Res Z)
    (est : PyPt -> PyPt -> PyPt -> PyPt -> Res float)
    (c : PenCall) (self : FlattenPen) (before inside inside' : bool) :
  path_state before (otherPen self) = Some inside ->
  path_state inside [c] = Some inside' ->
  path_state before (otherPen (fst (call int_round est c self)))
  = Some (match snd (call int_round est c self) with
          | Ok _ => inside'
          | Raise _ => inside
          end).
Proof.
  intros Hself Hc.
  destruct c as [pt | pt | pt1 pt2 pt3 | | | g t]; cbn [call].
  - destruct inside; [discriminate Hc |]. inversion Hc; subst.
    simpl. rewrite path_state_app, Hself. reflexivity.
  - destruct inside; [| discriminate Hc]. inversion Hc; subst.
    unfold lineTo.
    destruct (lineTo_outcome int_round pt self)
      as [[Hd _] | [[pts [_ Hd]] | [e' Hd]]];
      rewrite Hd; simpl; auto.
    rewrite path_state_app, Hself. apply path_state_lines.
  - destruct inside; [| discriminate Hc]. inversion Hc; subst.
    destruct (curveToOne_outcome int_round est pt1 pt2 pt3 self)
      as [[pts [_ Hd]] | [e' Hd]];
      rewrite Hd; simpl; auto.
    rewrite path_state_app, Hself. apply path_state_lines.
  - destruct inside; [| discriminate Hc]. inversion Hc; subst.
    destruct (lineTo_outcome int_round (firstPt self) self)
      as [[Hd _] | [[pts [_ Hd]] | [e' Hd]]].
    + rewrite (closePath_after_lineTo _ _ _ Hd). simpl.
      rewrite path_state_app, Hself. reflexivity.
    + rewrite (closePath_after_lineTo _ _ _ Hd). simpl.
      rewrite !path_state_app, Hself, path_state_lines. reflexivity.
    + rewrite (closePath_lineTo_raises _ _ _ _ Hd). simpl. exact Hself.
  - destruct inside; [| discriminate Hc]. inversion Hc; subst.
    simpl. rewrite path_state_app, Hself. reflexivity.
  - destruct inside; [discriminate Hc |]. inversion Hc; subst.
    simpl. rewrite path_state_app, Hself. reflexivity.
Qed.

Lemma draw_path_state (int_round : float -> Res Z)
    (est : PyPt -> PyPt -> PyPt -> PyPt -> Res float)
    (calls : list PenCall) :
  forall (self : FlattenPen) (before inside inside' : bool),
    path_state before (otherPen self) = Some inside ->
    path_state inside calls = Some inside' ->
    exists after : bool,
      path_state before (otherPen (fst (draw int_round est calls self)))
      = Some after
      /\ (snd (draw int_round est calls self) = Ok tt -> after = inside').
Proof.
  induction calls as [| c rest IH]; intros self before inside inside'
                                           Hself Hcalls.
  - simpl in Hcalls. inversion Hcalls; subst.
    exists inside'. split; [exact Hself | reflexivity].
  - change (c :: rest) with ([c] ++ rest) in Hcalls.
    rewrite path_state_app in Hcalls.
    destruct (path_state inside [c]) as [inside1 |] eqn:Hc;
      [| discriminate Hcalls].
    pose proof (call_path_state int_round est c self before inside inside1
                  Hself Hc) as Hstep.
    rewrite draw_cons.
    destruct (call int_round est c self) as [self1 [[] | e]];
      simpl in Hstep.
    + exact (IH self1 before inside1 inside' Hstep Hcalls).
    + exists inside. split; [exact Hstep | discriminate].
Qed.

(** X11.  A well-formed path stays well formed: when the calls of the
    producer follow the grammar of the pen protocol (contours opened by
    [moveTo] and ended by [closePath] or [endPath], segments inside them,
    components between them), so do the calls that the other pen receives,
    the added closing edges included, and they leave a contour open exactly
    when the producer's calls do.  When a call raises, the calls received up
    to then are well formed. *)
Theorem well_formed_paths_stay_well_formed :
  forall (int_round : float -> Res Z)
         (estimateCubicCurveLength : PyPt -> PyPt -> PyPt -> PyPt -> Res float)
         (len : float) (sl fd : bool) (calls : list PenCall)
         (inside' : bool),
    path_state false calls = Some inside' ->
    exists after : bool,
      path_state false
        (otherPen (fst (draw int_round estimateCubicCurveLength calls
                          (__init__ len sl fd))))
      = Some after
      /\ (snd (draw int_round estimateCubicCurveLength calls
                 (__init__ len sl fd)) = Ok tt ->
          after = inside').
Proof.
  intros int_round est len sl fd calls inside' Hcalls.
  apply (draw_path_state int_round est calls (__init__ len sl fd)
           false false inside'); [reflexivity | exact Hcalls].
Qed.

Lemma well_formed_paths_stay_well_formed_witness :
  exists after : bool,
    path_state false
      (otherPen (fst (draw int_round_py2 estimateCubicCurveLength_polygon
                        testGlyph_calls (__init__ 10 true true))))
    = Some after
    /\ (snd (draw int_round_py2 estimateCubicCurveLength_polygon
               testGlyph_calls (__init__ 10 true true)) = Ok tt ->
        after = false).
Proof.
  apply (well_formed_paths_stay_well_formed int_round_py2
           estimateCubicCurveLength_polygon 10 true true testGlyph_calls
           false).
  reflexivity.
Defined.
